(** * Qwen3-TTS backend: model lifecycle manager and audio utilities

    A shallow embedding of [backend/app/model_manager.py] and
    [backend/app/audio_utils.py].  Python objects that are mutated in place
    (the manager's [models] dict, the logger, the file system) are fields of
    an explicit state that every operation threads through; exceptions are
    the [Raise] outcome of a small state-and-exception monad.  The external
    libraries ([qwen_tts], [torch], [soundfile], [pydub], [librosa]) are
    section variables: the development holds for every behaviour they may
    have.  Python floats are Rocq's primitive binary64 floats.

    Embedded: [Qwen3TTSModelManager] ([__init__], [load_model],
    [load_tokenizer], [set_model_size], [get_model_size], [unload_model],
    [clear_cache]), [AudioProcessor] ([save_audio], [load_audio],
    [validate_audio_duration]) and [AudioMetadata.get_duration].  The
    read-only reports ([get_model_info], [get_info]) and
    [normalize_audio] are left out. *)

From Stdlib Require Import ZArith String List Floats Uint63 Lia DecimalString.
From stdpp Require Import base option gmap strings list fin_maps.

Local Open Scope string_scope.
Local Open Scope Z_scope.

(** ** The Python run time the two modules rely on *)

Module Py.

(** An exception object: its class and the arguments it was built with. *)
Record PyExn := mkExn { exn_class : string; exn_args : list string }.

Definition ValueError (msg : string) : PyExn := mkExn "ValueError" [msg].
Definition KeyError (key : string) : PyExn := mkExn "KeyError" [key].
Definition TypeError (msg : string) : PyExn := mkExn "TypeError" [msg].
Definition FileNotFoundError (msg : string) : PyExn := mkExn "FileNotFoundError" [msg].
Definition ZeroDivisionError : PyExn := mkExn "ZeroDivisionError" ["division by zero"].
Definition RecursionError : PyExn :=
  mkExn "RecursionError" ["maximum recursion depth exceeded"].

(** [repr] of a [str] without quotes or backslashes in it, and of a list of
    such strings: the text that an f-string shows for [list(d.keys())]. *)
Definition repr_str (s : string) : string := "'" +:+ s +:+ "'".

Fixpoint join (sep : string) (l : list string) : string :=
  match l with
  | [] => ""
  | [s] => s
  | s :: rest => s +:+ sep +:+ join sep rest
  end.

Definition repr_list (l : list string) : string :=
  "[" +:+ join ", " (map repr_str l) +:+ "]".

(** [str(e)]: the single argument, or the tuple of arguments. *)
Definition str_exn (e : PyExn) : string :=
  match exn_args e with
  | [] => ""
  | [m] => m
  | args => "(" +:+ join ", " (map repr_str args) +:+ ")"
  end.

(** A dict literal keeps its keys in order: [d[k]], [k in d], [d.keys()]. *)
Fixpoint assoc {V : Type} (k : string) (d : list (string * V)) : option V :=
  match d with
  | [] => None
  | (k', v) :: rest => if String.eqb k k' then Some v else assoc k rest
  end.

Definition keys {V : Type} (d : list (string * V)) : list string := map fst d.

(** [str.lower] on ASCII letters. *)
Definition lower_ascii (c : Ascii.ascii) : Ascii.ascii :=
  let n := Ascii.nat_of_ascii c in
  if (Nat.leb 65 n && Nat.leb n 90)%bool then Ascii.ascii_of_nat (n + 32) else c.

Fixpoint lower (s : string) : string :=
  match s with
  | EmptyString => EmptyString
  | String c rest => String (lower_ascii c) (lower rest)
  end.

Fixpoint upper_ascii_str (s : string) : string :=
  match s with
  | EmptyString => EmptyString
  | String c rest =>
      let n := Ascii.nat_of_ascii c in
      String (if (Nat.leb 97 n && Nat.leb n 122)%bool
              then Ascii.ascii_of_nat (n - 32) else c)
             (upper_ascii_str rest)
  end.

(** The [logging] module: a record is a level and a message. *)
Inductive Level := INFO | WARNING | ERROR.
Definition LogRecord : Type := Level * string.

(** The outcome of a call: a value, or a raised exception. *)
Inductive result (A : Type) : Type :=
  | Ok (a : A)
  | Raise (e : PyExn).
Arguments Ok {A} a.
Arguments Raise {A} e.

(** Computations over a mutable state [S] that may raise. *)
Definition M (S A : Type) : Type := S -> S * result A.

Definition pure {S A} (a : A) : M S A := fun st => (st, Ok a).
Definition raise {S A} (e : PyExn) : M S A := fun st => (st, Raise e).

Definition bind {S A B} (c : M S A) (k : A -> M S B) : M S B :=
  fun st =>
    match c st with
    | (st', Ok a) => k a st'
    | (st', Raise e) => (st', Raise e)
    end.

(** [try: c except Exception as e: h e]. *)
Definition try_except {S A} (c : M S A) (h : PyExn -> M S A) : M S A :=
  fun st =>
    match c st with
    | (st', Ok a) => (st', Ok a)
    | (st', Raise e) => h e st'
    end.

Definition gets {S A} (f : S -> A) : M S A := fun st => (st, Ok (f st)).
Definition modify {S} (f : S -> S) : M S unit := fun st => (f st, Ok tt).

Definition lift_result {S A} (r : result A) : M S A := fun st => (st, r).

Definition state_of {S A} (p : S * result A) : S := fst p.
Definition value_of {S A} (p : S * result A) : result A := snd p.

End Py.

Import Py.

#[global] Instance M_ret {S} : MRet (M S) := fun A a => pure a.
#[global] Instance M_bind {S} : MBind (M S) := fun A B k c => bind c k.


(** ** [model_manager.py] *)

Module ModelManager.

(** Model sizes configuration. *)
Definition MODEL_SIZES : list (string * list (string * string)) :=
  [ ("0.6B",
      [ ("custom_voice", "Qwen/Qwen3-TTS-12Hz-0.6B-CustomVoice");
        ("voice_design", "Qwen/Qwen3-TTS-12Hz-0.6B-VoiceDesign");
        ("voice_clone", "Qwen/Qwen3-TTS-12Hz-0.6B-Base") ]);
    ("1.7B",
      [ ("custom_voice", "Qwen/Qwen3-TTS-12Hz-1.7B-CustomVoice");
        ("voice_design", "Qwen/Qwen3-TTS-12Hz-1.7B-VoiceDesign");
        ("voice_clone", "Qwen/Qwen3-TTS-12Hz-1.7B-Base") ]) ].

(** [os.environ.get("MODEL_SIZE", "1.7B")]. *)
Definition DEFAULT_MODEL_SIZE (env_MODEL_SIZE : option string) : string :=
  match env_MODEL_SIZE with Some s => s | None => "1.7B" end.

(** Tokenizer is shared across all model sizes. *)
Definition TOKENIZER_MODEL : string := "Qwen/Qwen3-TTS-Tokenizer-12Hz".

Inductive Dtype := bfloat16 | float32.

(** A loaded object.  [oid] is the object's identity: two handles are the
    same Python object exactly when their [oid]s agree. *)
Inductive Handle :=
  | Qwen3TTSModel (oid : nat) (model_id device_map : string) (dtype : Dtype)
      (attn_implementation : string) (use_cache : bool) (training : bool)
  | Qwen3TTSTokenizer (oid : nat) (source device_map : string).

Definition oid_of (h : Handle) : nat :=
  match h with
  | Qwen3TTSModel oid _ _ _ _ _ _ => oid
  | Qwen3TTSTokenizer oid _ _ => oid
  end.

(** [model.eval()]: the module leaves training mode, in place. *)
Definition eval (h : Handle) : Handle :=
  match h with
  | Qwen3TTSModel oid mid dev dt attn uc _ => Qwen3TTSModel oid mid dev dt attn uc false
  | Qwen3TTSTokenizer _ _ _ => h
  end.

(** The manager's attributes ([models], [model_size]) and what its methods
    touch outside it: the logger, the calls made to the two
    [from_pretrained] loaders, the allocator of object identities, torch's
    CUDA cache and torch._dynamo's configuration. *)
Record State := mkState {
  models : gmap string Handle;
  model_size : string;
  log : list LogRecord;
  model_loads : list string;
  tokenizer_loads : nat;
  next_oid : nat;
  cuda_cache_flushes : nat;
  dynamo_suppress_errors : bool
}.

Definition set_models (f : gmap string Handle -> gmap string Handle) (st : State) : State :=
  mkState (f (models st)) (model_size st) (log st) (model_loads st)
          (tokenizer_loads st) (next_oid st) (cuda_cache_flushes st)
          (dynamo_suppress_errors st).

Definition set_model_size_field (size : string) (st : State) : State :=
  mkState (models st) size (log st) (model_loads st)
          (tokenizer_loads st) (next_oid st) (cuda_cache_flushes st)
          (dynamo_suppress_errors st).

Definition add_log (r : LogRecord) (st : State) : State :=
  mkState (models st) (model_size st) (log st ++ [r]) (model_loads st)
          (tokenizer_loads st) (next_oid st) (cuda_cache_flushes st)
          (dynamo_suppress_errors st).

Definition logger_info (msg : string) : M State unit := modify (add_log (INFO, msg)).
Definition logger_warning (msg : string) : M State unit := modify (add_log (WARNING, msg)).
Definition logger_error (msg : string) : M State unit := modify (add_log (ERROR, msg)).

(** [self.models[k]], [self.models[k] = h], [del self.models[k]],
    [self.models.clear()]. *)
Definition models_getitem (k : string) : M State Handle :=
  fun st =>
    match models st !! k with
    | Some h => (st, Ok h)
    | None => (st, Raise (KeyError k))
    end.

Definition models_setitem (k : string) (h : Handle) : M State unit :=
  modify (set_models (fun m => <[k := h]> m)).

Definition models_delitem (k : string) : M State unit :=
  fun st =>
    match models st !! k with
    | Some _ => (set_models (fun m => delete k m) st, Ok tt)
    | None => (st, Raise (KeyError k))
    end.

Definition models_clear : M State unit := modify (set_models (fun _ => ∅)).

(** [k in self.models]. *)
Definition cached (k : string) (st : State) : bool :=
  bool_decide (is_Some (models st !! k)).

(** [d[k]] on a dict literal. *)
Definition getitem {V S} (d : list (string * V)) (k : string) : M S V :=
  match assoc k d with
  | Some v => mret v
  | None => raise (KeyError k)
  end.

Definition contains {V} (d : list (string * V)) (k : string) : bool :=
  match assoc k d with Some _ => true | None => false end.

Section Env.

(** What the process finds at run time. *)
Variable cuda_available : bool.
(** [Qwen3TTSModel.from_pretrained]: whether the call number [n] (counting
    from 0), for the given identifier, raises; and the mode the library
    hands a fresh model over in. *)
Variable model_pretrained : nat -> string -> option PyExn.
Variable pretrained_training : bool.
(** [Qwen3TTSTokenizer.from_pretrained], likewise. *)
Variable tokenizer_pretrained : nat -> option PyExn.
(** [import torch._dynamo]. *)
Variable dynamo_import : option PyExn.

(** [device_manager.get_device()] and [device_manager.get_optimal_dtype()]. *)
Definition get_device : string := if cuda_available then "cuda:0" else "cpu".
Definition get_optimal_dtype : Dtype := if cuda_available then bfloat16 else float32.

Definition str_dtype (d : Dtype) : string :=
  match d with bfloat16 => "torch.bfloat16" | float32 => "torch.float32" end.

(** [Qwen3TTSModelManager.__init__]. *)
Definition init (size : string) : State :=
  mkState ∅ size
    [ (INFO, "Model Manager initialized - Device: " +:+ get_device +:+ ", DType: "
             +:+ str_dtype get_optimal_dtype +:+ ", Model Size: " +:+ size) ]
    [] 0%nat 0%nat 0%nat false.

Definition Qwen3TTSModel_from_pretrained (model_id : string) : M State Handle :=
  fun st =>
    let called :=
      mkState (models st) (model_size st) (log st) (model_loads st ++ [model_id])
              (tokenizer_loads st) (next_oid st) (cuda_cache_flushes st)
              (dynamo_suppress_errors st) in
    match model_pretrained (length (model_loads st)) model_id with
    | Some e => (called, Raise e)
    | None =>
        (mkState (models st) (model_size st) (log st) (model_loads st ++ [model_id])
                 (tokenizer_loads st) (S (next_oid st)) (cuda_cache_flushes st)
                 (dynamo_suppress_errors st),
         Ok (Qwen3TTSModel (next_oid st) model_id get_device get_optimal_dtype
                           "eager" true pretrained_training))
    end.

Definition Qwen3TTSTokenizer_from_pretrained : M State Handle :=
  fun st =>
    match tokenizer_pretrained (tokenizer_loads st) with
    | Some e =>
        (mkState (models st) (model_size st) (log st) (model_loads st)
                 (S (tokenizer_loads st)) (next_oid st) (cuda_cache_flushes st)
                 (dynamo_suppress_errors st), Raise e)
    | None =>
        (mkState (models st) (model_size st) (log st) (model_loads st)
                 (S (tokenizer_loads st)) (S (next_oid st)) (cuda_cache_flushes st)
                 (dynamo_suppress_errors st),
         Ok (Qwen3TTSTokenizer (next_oid st) TOKENIZER_MODEL get_device))
    end.

(** The CPU branch of [load_model]: import torch._dynamo and set
    [config.suppress_errors]; an exception there is logged and dropped. *)
Definition import_torch_dynamo : M State unit :=
  match dynamo_import with
  | Some e => raise e
  | None => mret tt
  end.

Definition set_suppress_errors : M State unit :=
  modify (fun st =>
    mkState (models st) (model_size st) (log st) (model_loads st)
            (tokenizer_loads st) (next_oid st) (cuda_cache_flushes st) true).

Definition optimize_for_cpu : M State unit :=
  if negb cuda_available then
    try_except
      (import_torch_dynamo;;
       set_suppress_errors;;
       logger_info "Attempting torch.compile optimization for CPU...")
      (fun e => logger_info ("Torch compile not available: " +:+ str_exn e))
  else mret tt.

(** [Qwen3TTSModelManager.load_model]. *)
Definition load_model (model_type : string) (force_reload : bool) : M State Handle :=
  hit ← gets (cached model_type);
  if hit && negb force_reload then
    logger_info ("Using cached " +:+ model_type +:+ " model");;
    models_getitem model_type
  else
    size ← gets model_size;
    profile ← getitem MODEL_SIZES size;
    if negb (contains profile model_type) then
      raise (ValueError ("Unknown model type: " +:+ model_type +:+ ". Available: "
                         +:+ repr_list (keys profile)))
    else
      model_id ← getitem profile model_type;
      logger_info ("Loading " +:+ model_type +:+ " model (" +:+ size +:+ ") from "
                   +:+ model_id);;
      try_except
        (model ← Qwen3TTSModel_from_pretrained model_id;
         let model := eval model in
         optimize_for_cpu;;
         models_setitem model_type model;;
         logger_info ("Successfully loaded " +:+ model_type +:+ " model ("
                      +:+ size +:+ ")");;
         mret model)
        (fun e =>
           logger_error ("Failed to load " +:+ model_type +:+ " model: " +:+ str_exn e);;
           raise e).

(** [Qwen3TTSModelManager.load_tokenizer]. *)
Definition load_tokenizer (force_reload : bool) : M State Handle :=
  hit ← gets (cached "tokenizer");
  if hit && negb force_reload then
    logger_info "Using cached tokenizer";;
    models_getitem "tokenizer"
  else
    logger_info ("Loading tokenizer from " +:+ TOKENIZER_MODEL);;
    try_except
      (tokenizer ← Qwen3TTSTokenizer_from_pretrained;
       models_setitem "tokenizer" tokenizer;;
       logger_info "Successfully loaded tokenizer";;
       mret tokenizer)
      (fun e =>
         logger_error ("Failed to load tokenizer: " +:+ str_exn e);;
         raise e).

(** [torch.cuda.empty_cache()]. *)
Definition torch_cuda_empty_cache : M State unit :=
  modify (fun st =>
    mkState (models st) (model_size st) (log st) (model_loads st)
            (tokenizer_loads st) (next_oid st) (S (cuda_cache_flushes st))
            (dynamo_suppress_errors st)).

(** [Qwen3TTSModelManager.clear_cache]. *)
Definition clear_cache : M State unit :=
  models_clear;;
  (if cuda_available then torch_cuda_empty_cache else mret tt);;
  logger_info "Cleared model cache".

(** [Qwen3TTSModelManager.set_model_size]. *)
Definition set_model_size (size : string) : M State unit :=
  if negb (contains MODEL_SIZES size) then
    raise (ValueError ("Invalid model size: " +:+ size +:+ ". Available: "
                       +:+ repr_list (keys MODEL_SIZES)))
  else
    current ← gets model_size;
    if negb (String.eqb size current) then
      logger_info ("Changing model size from " +:+ current +:+ " to " +:+ size);;
      clear_cache;;
      modify (set_model_size_field size)
    else mret tt.

(** [Qwen3TTSModelManager.get_model_size]. *)
Definition get_model_size : M State string := gets model_size.

(** [Qwen3TTSModelManager.unload_model]. *)
Definition unload_model (model_type : string) : M State unit :=
  hit ← gets (cached model_type);
  if (hit : bool) then
    models_delitem model_type;;
    logger_info ("Unloaded " +:+ model_type +:+ " model")
  else mret tt.

(** *** [load_model] under interleaving

    [main.py] runs [load_model] both on the event-loop thread (the request
    handlers) and on a worker thread ([asyncio.to_thread] at start-up), and
    the manager takes no lock.  A call is cut at the points where the
    other thread may run: before the cache test (line 99), after a miss
    (lines 103-107), before the loader is called (line 113), with a loaded
    model not yet stored (line 137), and after [return] or [raise]. *)
Inductive Thread :=
  | AtEntry (model_type : string) (force_reload : bool)
  | AtResolve (model_type : string)
  | AtLoad (model_type size model_id : string)
  | AtStore (model_type size : string) (model : Handle)
  | Finished (r : result Handle).

Definition finish (p : State * result Handle) : State * Thread :=
  (fst p, Finished (snd p)).

Definition step (t : Thread) (st : State) : State * Thread :=
  match t with
  | AtEntry model_type force_reload =>
      if cached model_type st && negb force_reload then
        finish ((logger_info ("Using cached " +:+ model_type +:+ " model");;
                 models_getitem model_type) st)
      else (st, AtResolve model_type)
  | AtResolve model_type =>
      match
        (size ← gets model_size;
         profile ← getitem MODEL_SIZES size;
         if negb (contains profile model_type) then
           raise (ValueError ("Unknown model type: " +:+ model_type +:+ ". Available: "
                              +:+ repr_list (keys profile)))
         else
           model_id ← getitem profile model_type;
           logger_info ("Loading " +:+ model_type +:+ " model (" +:+ size +:+ ") from "
                        +:+ model_id);;
           mret (size, model_id)) st
      with
      | (st', Ok (size, model_id)) => (st', AtLoad model_type size model_id)
      | (st', Raise e) => (st', Finished (Raise e))
      end
  | AtLoad model_type size model_id =>
      match
        (model ← Qwen3TTSModel_from_pretrained model_id;
         let model := eval model in
         optimize_for_cpu;;
         mret model) st
      with
      | (st', Ok model) => (st', AtStore model_type size model)
      | (st', Raise e) =>
          finish ((logger_error ("Failed to load " +:+ model_type +:+ " model: "
                                 +:+ str_exn e);;
                   raise e) st')
      end
  | AtStore model_type size model =>
      finish ((models_setitem model_type model;;
               logger_info ("Successfully loaded " +:+ model_type +:+ " model ("
                            +:+ size +:+ ")");;
               mret model) st)
  | Finished r => (st, Finished r)
  end.

(** One thread run on its own, for [n] steps. *)
Fixpoint run_thread (n : nat) (t : Thread) (st : State) : State * Thread :=
  match n with
  | O => (st, t)
  | S n' => let '(st', t') := step t st in run_thread n' t' st'
  end.

(** Two threads over the one manager; the schedule says who moves next
    ([false]: the first thread, [true]: the second). *)
Definition Config : Type := State * Thread * Thread.

Definition sched_step (c : Config) (second : bool) : Config :=
  let '(st, t1, t2) := c in
  if second then let '(st', t2') := step t2 st in (st', t1, t2')
  else let '(st', t1') := step t1 st in (st', t1', t2).

Definition run_schedule (schedule : list bool) (c : Config) : Config :=
  fold_left sched_step schedule c.

(** Does the step that [t] is about to take test the cache and miss? *)
Definition observes_miss (t : Thread) (st : State) : bool :=
  match t with
  | AtEntry model_type force_reload => negb (cached model_type st && negb force_reload)
  | _ => false
  end.

(** The same run, with a note for each thread of whether its cache test
    has missed so far. *)
Definition Observed : Type := Config * bool * bool.

Definition sched_step_obs (x : Observed) (second : bool) : Observed :=
  let '(st, t1, t2, m1, m2) := x in
  if second then (sched_step (st, t1, t2) true, m1, m2 || observes_miss t2 st)
  else (sched_step (st, t1, t2) false, m1 || observes_miss t1 st, m2).

Definition run_observed (schedule : list bool) (c : Config) : Observed :=
  fold_left sched_step_obs schedule (c, false, false).

(** The loader calls that a thread has behind it ([missed] says whether its
    cache test missed), and the identity of the model it holds, if any. *)
Definition loads_of (t : Thread) (missed : bool) : nat :=
  match t with
  | AtStore _ _ _ => 1
  | Finished _ => if missed then 1 else 0
  | _ => 0
  end.

Definition held (t : Thread) : option nat :=
  match t with
  | AtStore _ _ model => Some (oid_of model)
  | Finished (Ok model) => Some (oid_of model)
  | _ => None
  end.

(** The identifier the active size binds a model type to:
    [MODEL_SIZES[size][model_type]], when both keys exist. *)
Definition resolve (size model_type : string) : option string :=
  match assoc size MODEL_SIZES with
  | Some profile => assoc model_type profile
  | None => None
  end.

(** Every cached key other than the tokenizer slot is a model type of the
    active size. *)
Definition cache_inv (st : State) : Prop :=
  forall k, is_Some (models st !! k) -> k <> "tokenizer" ->
            is_Some (resolve (model_size st) k).

(** The calls a client can make on the manager, and runs of them. *)
Inductive Call :=
  | CallLoadModel (model_type : string) (force_reload : bool)
  | CallLoadTokenizer (force_reload : bool)
  | CallSetModelSize (size : string)
  | CallUnloadModel (model_type : string)
  | CallClearCache.

Definition call (c : Call) (st : State) : State :=
  match c with
  | CallLoadModel model_type force_reload => state_of (load_model model_type force_reload st)
  | CallLoadTokenizer force_reload => state_of (load_tokenizer force_reload st)
  | CallSetModelSize size => state_of (set_model_size size st)
  | CallUnloadModel model_type => state_of (unload_model model_type st)
  | CallClearCache => state_of (clear_cache st)
  end.

Definition run_calls (cs : list Call) (st : State) : State :=
  fold_left (fun st c => call c st) cs st.

(** Does the exception mention the text [s] in one of its arguments? *)
Definition mentions (e : PyExn) (s : string) : bool :=
  existsb (fun a => match String.index 0 s a with Some _ => true | None => false end)
          (exn_args e).

(** The error the specification names for a failed load: a
    [ModelLoadError] that carries the role and the resolved identifier. *)
Definition is_ModelLoadError_for (e : PyExn) (role model_id : string) : bool :=
  String.eqb (exn_class e) "ModelLoadError" && mentions e role && mentions e model_id.

Arguments assoc {V} k d : simpl never.
Arguments String.append s1 s2 : simpl never.

Ltac run_m :=
  repeat progress
    (unfold mbind, M_bind, mret, M_ret, bind, pure, raise, gets, modify, try_except,
            logger_info, logger_warning, logger_error, models_setitem, models_clear,
            state_of, value_of in *;
     simpl in *).

Lemma cached_true k st : cached k st = true <-> is_Some (models st !! k).
Proof. unfold cached. apply bool_decide_eq_true. Qed.

Lemma cached_false k st : cached k st = false <-> models st !! k = None.
Proof.
  unfold cached. rewrite bool_decide_eq_false. rewrite eq_None_not_Some. tauto.
Qed.

Lemma contains_assoc {V} (d : list (string * V)) k :
  contains d k = true <-> is_Some (assoc k d).
Proof.
  unfold contains. destruct (assoc k d); split; intros H; try done; eauto.
Qed.

(** *** [load_model], case by case *)

Lemma load_model_hit st role h :
  models st !! role = Some h ->
  load_model role false st
  = (add_log (INFO, "Using cached " +:+ role +:+ " model") st, Ok h).
Proof.
  intros Hh. unfold load_model. run_m.
  assert (cached role st = true) as -> by (apply cached_true; eauto).
  simpl. unfold models_getitem. simpl. by rewrite Hh.
Qed.

Lemma load_model_no_profile st role force :
  cached role st && negb force = false ->
  assoc (model_size st) MODEL_SIZES = None ->
  load_model role force st = (st, Raise (KeyError (model_size st))).
Proof.
  intros Hmiss Hsz. unfold load_model. run_m. rewrite Hmiss.
  unfold getitem. rewrite Hsz. done.
Qed.

Lemma load_model_unknown st role force profile :
  cached role st && negb force = false ->
  assoc (model_size st) MODEL_SIZES = Some profile ->
  assoc role profile = None ->
  load_model role force st
  = (st, Raise (ValueError ("Unknown model type: " +:+ role +:+ ". Available: "
                            +:+ repr_list (keys profile)))).
Proof.
  intros Hmiss Hsz Hrole. unfold load_model. run_m. rewrite Hmiss.
  unfold getitem, contains. rewrite Hsz. run_m. by rewrite Hrole.
Qed.

Lemma load_model_failure st role force model_id e :
  cached role st && negb force = false ->
  resolve (model_size st) role = Some model_id ->
  model_pretrained (length (model_loads st)) model_id = Some e ->
  exists st',
    load_model role force st = (st', Raise e)
    /\ models st' = models st
    /\ model_size st' = model_size st
    /\ model_loads st' = (model_loads st ++ [model_id])%list
    /\ next_oid st' = next_oid st
    /\ log st' =
         (log st
          ++ [ (INFO, "Loading " +:+ role +:+ " model (" +:+ model_size st +:+ ") from "
                      +:+ model_id);
               (ERROR, "Failed to load " +:+ role +:+ " model: " +:+ str_exn e) ])%list.
Proof.
  intros Hmiss Hres Hfail. unfold resolve in Hres.
  destruct (assoc (model_size st) MODEL_SIZES) as [profile|] eqn:Hsz; [|done].
  unfold load_model. run_m. rewrite Hmiss.
  unfold getitem, contains. rewrite Hsz. run_m. rewrite Hres. run_m.
  unfold Qwen3TTSModel_from_pretrained. simpl. rewrite Hfail.
  eexists. split; [reflexivity|]. simpl.
  rewrite <- app_assoc. done.
Qed.

Lemma optimize_for_cpu_frame st :
  exists st', optimize_for_cpu st = (st', Ok tt)
    /\ models st' = models st /\ model_size st' = model_size st
    /\ model_loads st' = model_loads st /\ next_oid st' = next_oid st
    /\ tokenizer_loads st' = tokenizer_loads st.
Proof.
  unfold optimize_for_cpu, import_torch_dynamo, set_suppress_errors.
  destruct cuda_available; simpl; [by eexists|].
  destruct dynamo_import; run_m; by eexists.
Qed.

Lemma load_model_success st role force model_id :
  cached role st && negb force = false ->
  resolve (model_size st) role = Some model_id ->
  model_pretrained (length (model_loads st)) model_id = None ->
  exists st',
    load_model role force st
    = (st', Ok (Qwen3TTSModel (next_oid st) model_id get_device get_optimal_dtype
                              "eager" true false))
    /\ models st'
       = <[role := Qwen3TTSModel (next_oid st) model_id get_device get_optimal_dtype
                                 "eager" true false]> (models st)
    /\ model_size st' = model_size st
    /\ model_loads st' = (model_loads st ++ [model_id])%list
    /\ next_oid st' = S (next_oid st).
Proof.
  intros Hmiss Hres Hok. unfold resolve in Hres.
  destruct (assoc (model_size st) MODEL_SIZES) as [profile|] eqn:Hsz; [|done].
  unfold load_model. run_m. rewrite Hmiss.
  unfold getitem, contains. rewrite Hsz. run_m. rewrite Hres. run_m.
  unfold Qwen3TTSModel_from_pretrained. simpl. rewrite Hok.
  match goal with |- context [optimize_for_cpu ?s] =>
    destruct (optimize_for_cpu_frame s) as (st1 & -> & Hm & Hs & Hl & Hn & _)
  end.
  simpl in *. eexists. split; [reflexivity|]. simpl.
  rewrite Hm, Hs, Hl, Hn. done.
Qed.

(** A call that returns a handle leaves that handle cached under its key,
    and has run the loader at most once. *)
Lemma load_model_returns_cached st role force st1 h :
  load_model role force st = (st1, Ok h) ->
  models st1 !! role = Some h
  /\ model_size st1 = model_size st
  /\ (length (model_loads st1) <= length (model_loads st) + 1)%nat.
Proof.
  intros Hcall.
  destruct (cached role st && negb force) eqn:Hmiss.
  - apply andb_true_iff in Hmiss as [Hc Hf].
    apply cached_true in Hc as [h' Hh']. destruct force; [done|].
    rewrite (load_model_hit _ _ _ Hh') in Hcall. simplify_eq. simpl.
    split_and!; [done|done|lia].
  - destruct (assoc (model_size st) MODEL_SIZES) as [profile|] eqn:Hsz.
    2: { by rewrite load_model_no_profile in Hcall. }
    destruct (assoc role profile) as [model_id|] eqn:Hrole.
    2: { by rewrite (load_model_unknown _ _ _ profile) in Hcall. }
    assert (resolve (model_size st) role = Some model_id) as Hres
      by (unfold resolve; by rewrite Hsz).
    destruct (model_pretrained (length (model_loads st)) model_id) as [e|] eqn:Hp.
    + destruct (load_model_failure _ _ _ _ _ Hmiss Hres Hp) as (st' & Heq & _).
      rewrite Heq in Hcall. done.
    + destruct (load_model_success _ _ _ _ Hmiss Hres Hp)
        as (st' & Heq & Hm & Hs & Hl & _).
      rewrite Heq in Hcall. simplify_eq.
      rewrite Hm, Hl, lookup_insert_eq, length_app. simpl.
      split_and!; [done|done|lia].
Qed.

(** *** The other operations *)

Lemma clear_cache_spec st :
  exists st', clear_cache st = (st', Ok tt)
    /\ models st' = ∅ /\ model_size st' = model_size st
    /\ model_loads st' = model_loads st /\ next_oid st' = next_oid st.
Proof.
  unfold clear_cache, torch_cuda_empty_cache. run_m.
  destruct cuda_available; simpl; by eexists.
Qed.

Lemma load_tokenizer_frame st force :
  model_size (state_of (load_tokenizer force st)) = model_size st
  /\ (models (state_of (load_tokenizer force st)) = models st
      \/ exists h, models (state_of (load_tokenizer force st))
                   = <["tokenizer" := h]> (models st)).
Proof.
  unfold load_tokenizer. run_m.
  destruct (cached "tokenizer" st && negb force) eqn:Hmiss; simpl.
  - unfold models_getitem. simpl.
    destruct (models st !! "tokenizer"); simpl; auto.
  - unfold Qwen3TTSTokenizer_from_pretrained. simpl.
    destruct (tokenizer_pretrained (tokenizer_loads st)); simpl; eauto.
Qed.

Lemma unload_model_spec st role :
  model_size (state_of (unload_model role st)) = model_size st
  /\ models (state_of (unload_model role st)) = delete role (models st).
Proof.
  unfold unload_model. run_m.
  destruct (cached role st) eqn:Hc; simpl.
  - apply cached_true in Hc as [h Hh]. unfold models_delitem. rewrite Hh. done.
  - apply cached_false in Hc. by rewrite delete_id.
Qed.

Lemma set_model_size_frame st size :
  (model_size (state_of (set_model_size size st)) = model_size st
   /\ models (state_of (set_model_size size st)) = models st)
  \/ (contains MODEL_SIZES size = true
      /\ model_size (state_of (set_model_size size st)) = size
      /\ models (state_of (set_model_size size st)) = ∅).
Proof.
  unfold set_model_size.
  destruct (contains MODEL_SIZES size) eqn:Hv; simpl; [|by left].
  run_m. destruct (String.eqb size (model_size st)) eqn:Heq; simpl; [by left|].
  match goal with |- context [clear_cache ?s] =>
    destruct (clear_cache_spec s) as (st' & -> & Hm & _)
  end.
  simpl. right. done.
Qed.

Lemma load_model_frame st role force :
  model_size (state_of (load_model role force st)) = model_size st
  /\ (models (state_of (load_model role force st)) = models st
      \/ exists h, is_Some (resolve (model_size st) role)
           /\ models (state_of (load_model role force st)) = <[role := h]> (models st)).
Proof.
  destruct (cached role st && negb force) eqn:Hmiss.
  - apply andb_true_iff in Hmiss as [Hc Hf].
    apply cached_true in Hc as [h' Hh']. destruct force; [done|].
    rewrite (load_model_hit _ _ _ Hh'). simpl. auto.
  - destruct (assoc (model_size st) MODEL_SIZES) as [profile|] eqn:Hsz.
    2: { rewrite load_model_no_profile by done. simpl. auto. }
    destruct (assoc role profile) as [model_id|] eqn:Hrole.
    2: { rewrite (load_model_unknown _ _ _ profile) by done. simpl. auto. }
    assert (resolve (model_size st) role = Some model_id) as Hres
      by (unfold resolve; by rewrite Hsz).
    destruct (model_pretrained (length (model_loads st)) model_id) as [e|] eqn:Hp.
    + destruct (load_model_failure _ _ _ _ _ Hmiss Hres Hp) as (st' & -> & Hm & Hs & _).
      simpl. auto.
    + destruct (load_model_success _ _ _ _ Hmiss Hres Hp) as (st' & -> & Hm & Hs & _).
      simpl. split; [done|]. right. eexists. rewrite Hres. eauto.
Qed.

Lemma cache_inv_call c st : cache_inv st -> cache_inv (call c st).
Proof.
  intros Hinv. destruct c as [role force|force|size|role|]; simpl.
  - destruct (load_model_frame st role force) as [Hs [Hm|(h & Hdef & Hm)]];
      intros k Hk Hne; rewrite Hs; rewrite Hm in Hk; [by apply Hinv|].
    destruct (decide (role = k)) as [->|Hrk]; [done|].
    rewrite lookup_insert_ne in Hk by done. by apply Hinv.
  - destruct (load_tokenizer_frame st force) as [Hs [Hm|(h & Hm)]];
      intros k Hk Hne; rewrite Hs; rewrite Hm in Hk; [by apply Hinv|].
    rewrite lookup_insert_ne in Hk by done. by apply Hinv.
  - destruct (set_model_size_frame st size) as [[Hs Hm]|(_ & Hs & Hm)];
      intros k Hk Hne; rewrite Hm in Hk.
    + rewrite Hs. by apply Hinv.
    + rewrite lookup_empty in Hk. by destruct Hk.
  - destruct (unload_model_spec st role) as [Hs Hm].
    intros k Hk Hne. rewrite Hs. rewrite Hm in Hk.
    destruct (decide (role = k)) as [->|Hrk].
    + rewrite lookup_delete_eq in Hk. by destruct Hk.
    + rewrite lookup_delete_ne in Hk by done. by apply Hinv.
  - destruct (clear_cache_spec st) as (st' & Heq & Hm & _).
    intros k Hk Hne. unfold state_of in Hk. rewrite Heq in Hk. simpl in Hk.
    rewrite Hm, lookup_empty in Hk. by destruct Hk.
Qed.

(** *** Threads *)

(** A thread that nobody interrupts computes [load_model]. *)
Lemma run_thread_load_model role force st :
  run_thread 4 (AtEntry role force) st = finish (load_model role force st).
Proof.
  unfold load_model, finish. simpl. run_m.
  destruct (cached role st && negb force) eqn:Hmiss; run_m.
  { destruct (models_getitem role _); reflexivity. }
  unfold getitem.
  destruct (assoc (model_size st) MODEL_SIZES) as [profile|]; run_m; [|done].
  unfold contains.
  destruct (assoc role profile) as [model_id|]; run_m; [|done].
  destruct (Qwen3TTSModel_from_pretrained model_id _) as [st1 [model|e]]; run_m; [|done].
  destruct (optimize_for_cpu_frame st1) as (st2 & -> & _). run_m. done.
Qed.

Lemma step_resolve st role model_id :
  resolve (model_size st) role = Some model_id ->
  exists st', step (AtResolve role) st = (st', AtLoad role (model_size st) model_id)
    /\ model_size st' = model_size st /\ model_loads st' = model_loads st
    /\ next_oid st' = next_oid st.
Proof.
  unfold resolve. intros Hres.
  destruct (assoc (model_size st) MODEL_SIZES) as [profile|] eqn:Hsz; [|done].
  simpl. run_m. unfold getitem, contains. rewrite Hsz. run_m. rewrite Hres. run_m.
  eexists. split; [reflexivity|]. done.
Qed.

Lemma step_load st role size model_id :
  exists st' t',
    step (AtLoad role size model_id) st = (st', t')
    /\ model_size st' = model_size st
    /\ model_loads st' = (model_loads st ++ [model_id])%list
    /\ ((exists e, t' = Finished (Raise e)) /\ next_oid st' = next_oid st
        \/ (exists model, t' = AtStore role size model /\ oid_of model = next_oid st)
           /\ next_oid st' = S (next_oid st)).
Proof.
  simpl. run_m. unfold Qwen3TTSModel_from_pretrained.
  destruct (model_pretrained (length (model_loads st)) model_id) as [e|]; simpl.
  - do 2 eexists. split; [reflexivity|]. simpl. split_and!; try done. left. eauto.
  - match goal with |- context [optimize_for_cpu ?s] =>
      destruct (optimize_for_cpu_frame s) as (st1 & -> & Hm & Hs & Hl & Hn & _)
    end.
    simpl in *. do 2 eexists. split; [reflexivity|]. split_and!; try done.
    right. rewrite Hn. split; [|done]. eexists. split; [reflexivity|]. done.
Qed.

Lemma step_store st role size model :
  exists st', step (AtStore role size model) st = (st', Finished (Ok model))
    /\ model_size st' = model_size st /\ model_loads st' = model_loads st
    /\ next_oid st' = next_oid st.
Proof. simpl. run_m. eexists. split; [reflexivity|]. done. Qed.

(** What a call of [load_model(role)] looks like on its way, [model_id]
    being what the active size binds [role] to: a thread whose cache test
    missed never holds an identity that is still to be allocated. *)
Definition thread_ok (role model_id : string) (t : Thread) (missed : bool)
    (st : State) : Prop :=
  match t with
  | AtEntry model_type _ => model_type = role /\ missed = false
  | AtResolve model_type => model_type = role /\ missed = true
  | AtLoad _ _ mid => mid = model_id /\ missed = true
  | AtStore _ _ _ => missed = true
  | Finished _ => True
  end
  /\ (missed = true -> forall o, held t = Some o -> (o < next_oid st)%nat).

Lemma step_thread_ok role model_id t missed st :
  resolve (model_size st) role = Some model_id ->
  thread_ok role model_id t missed st ->
  exists st' t',
    step t st = (st', t')
    /\ model_size st' = model_size st
    /\ (next_oid st <= next_oid st')%nat
    /\ model_loads st'
       = (model_loads st
          ++ repeat model_id (loads_of t' (missed || observes_miss t st)
                              - loads_of t missed))%list
    /\ (loads_of t missed <= loads_of t' (missed || observes_miss t st))%nat
    /\ thread_ok role model_id t' (missed || observes_miss t st) st'
    /\ (forall o, missed || observes_miss t st = true -> held t' = Some o ->
          (missed = true /\ held t = Some o) \/ (next_oid st <= o)%nat).
Proof.
  intros Hres [Hshape Hheld]. destruct t as [mt f|mt|mt sz mid|mt sz model|r].
  - destruct Hshape as [-> ->]. simpl.
    destruct (cached role st && negb f) eqn:Hhit; simpl.
    + run_m. unfold finish, models_getitem. simpl.
      destruct (models st !! role) as [h|]; simpl;
        (do 2 eexists; split; [reflexivity|]; simpl; rewrite app_nil_r;
         repeat split; try done).
    + exists st, (AtResolve role). simpl. rewrite app_nil_r.
      repeat split; try done.
  - destruct Hshape as [-> ->].
    destruct (step_resolve _ _ _ Hres) as (st' & Hstep & Hs & Hl & Hn).
    exists st', (AtLoad role (model_size st) model_id).
    split; [done|]. simpl. rewrite Hs, Hl, Hn, app_nil_r.
    repeat split; try done.
  - destruct Hshape as [-> ->].
    destruct (step_load st mt sz model_id) as (st' & t' & Hstep & Hs & Hl & Hcase).
    exists st', t'. split; [done|]. rewrite Hs, Hl.
    destruct Hcase as [[[e ->] Hn]|[(model & -> & Hoid) Hn]]; simpl; rewrite Hn.
    + repeat split; try done; lia.
    + repeat split; try done; try lia;
        intros; unfold held in *; simplify_eq; first [lia | right; lia].
  - simpl in Hshape. subst missed.
    destruct (step_store st mt sz model) as (st' & Hstep & Hs & Hl & Hn).
    exists st', (Finished (Ok model)). split; [done|].
    simpl. rewrite Hs, Hl, Hn, app_nil_r.
    repeat split; try done;
      try (intros; first [rewrite Hn; by apply Hheld | by left]).
  - exists st, (Finished r). simpl. rewrite orb_false_r, Nat.sub_diag, app_nil_r.
    repeat split; try done. intros o Hm Ho. by left.
Qed.

Lemma thread_ok_mono role model_id t missed st st' :
  (next_oid st <= next_oid st')%nat ->
  thread_ok role model_id t missed st -> thread_ok role model_id t missed st'.
Proof.
  intros Hle [Hshape Hheld]. split; [done|].
  intros Hm o Ho. specialize (Hheld Hm o Ho). lia.
Qed.

(** The invariant of two calls of [load_model(role)] that run interleaved. *)
Definition two_loads (role size model_id : string) (base : list string)
    (x : Observed) : Prop :=
  let '(st, t1, t2, m1, m2) := x in
  model_size st = size
  /\ model_loads st = (base ++ repeat model_id (loads_of t1 m1 + loads_of t2 m2))%list
  /\ thread_ok role model_id t1 m1 st
  /\ thread_ok role model_id t2 m2 st
  /\ (m1 = true -> m2 = true ->
      forall o1 o2, held t1 = Some o1 -> held t2 = Some o2 -> o1 <> o2).

Lemma two_loads_step role size model_id base x second :
  resolve size role = Some model_id ->
  two_loads role size model_id base x ->
  two_loads role size model_id base (sched_step_obs x second).
Proof.
  intros Hres. destruct x as [[[[st t1] t2] m1] m2].
  intros (Hs & Hl & H1 & H2 & Hdist).
  rewrite <- Hs in Hres. destruct second; simpl.
  - destruct (step_thread_ok _ _ _ _ _ Hres H2)
      as (st' & t2' & -> & Hs' & Hn & Hl' & Hd & H2' & Hfresh).
    split_and!.
    + congruence.
    + rewrite Hl', Hl, <- app_assoc, <- repeat_app. do 2 f_equal. lia.
    + by eapply thread_ok_mono.
    + done.
    + intros Hm1 Hm2 o1 o2 Ho1 Ho2.
      destruct (Hfresh _ Hm2 Ho2) as [[Hm Hold]|Hnew].
      * by apply Hdist.
      * destruct H1 as [_ Hb]. specialize (Hb Hm1 _ Ho1). lia.
  - destruct (step_thread_ok _ _ _ _ _ Hres H1)
      as (st' & t1' & -> & Hs' & Hn & Hl' & Hd & H1' & Hfresh).
    split_and!.
    + congruence.
    + rewrite Hl', Hl, <- app_assoc, <- repeat_app. do 2 f_equal. lia.
    + done.
    + by eapply thread_ok_mono.
    + intros Hm1 Hm2 o1 o2 Ho1 Ho2.
      destruct (Hfresh _ Hm1 Ho1) as [[Hm Hold]|Hnew].
      * by apply Hdist.
      * destruct H2 as [_ Hb]. specialize (Hb Hm2 _ Ho2). lia.
Qed.

Lemma two_loads_run role size model_id base schedule x :
  resolve size role = Some model_id ->
  two_loads role size model_id base x ->
  two_loads role size model_id base (fold_left sched_step_obs schedule x).
Proof.
  intros Hres. revert x.
  induction schedule as [|b schedule IH]; intros x Hx; simpl; [done|].
  apply IH. by apply two_loads_step.
Qed.

(** The notes do not change the run. *)
Lemma run_observed_config schedule c m1 m2 :
  fst (fst (fold_left sched_step_obs schedule (c, m1, m2))) = run_schedule schedule c.
Proof.
  unfold run_schedule. revert c m1 m2.
  induction schedule as [|b schedule IH]; intros [[st t1] t2] m1 m2; simpl; [done|].
  destruct b; apply IH.
Qed.

(** *** The claims about the manager *)

(** C1 (as the code has it): a switch to a valid size other than the
    active one first empties the whole [models] dict, so the tokenizer slot
    is evicted together with the models, and only then assigns
    [model_size]: the state in between has an empty cache and still the
    old size. *)
Theorem set_model_size_switch st size :
  contains MODEL_SIZES size = true ->
  size <> model_size st ->
  exists st_evicted,
    clear_cache
      (add_log (INFO, "Changing model size from " +:+ model_size st +:+ " to " +:+ size) st)
    = (st_evicted, Ok tt)
    /\ models st_evicted = ∅
    /\ model_size st_evicted = model_size st
    /\ set_model_size size st = (set_model_size_field size st_evicted, Ok tt)
    /\ (forall k, models (state_of (set_model_size size st)) !! k = None)
    /\ model_size (state_of (set_model_size size st)) = size.
Proof.
  intros Hvalid Hne.
  destruct (clear_cache_spec
              (add_log (INFO, "Changing model size from " +:+ model_size st
                              +:+ " to " +:+ size) st))
    as (st' & Heq & Hm & Hs & _).
  exists st'. split; [done|]. split; [done|]. split; [done|].
  assert (set_model_size size st = (set_model_size_field size st', Ok tt)) as Hrun.
  { unfold set_model_size. rewrite Hvalid. run_m.
    assert (String.eqb size (model_size st) = false) as ->
      by (by apply String.eqb_neq).
    simpl. by rewrite Heq. }
  split; [done|]. rewrite Hrun. simpl. split; [|done].
  intros k. rewrite Hm. apply lookup_empty.
Qed.

(** C2 (as the code has it): the manager has no lock and no single-flight.
    When two interleaved calls of [load_model(R)], [R] a role of the active
    profile, have both gone past the cache test without a hit (a miss, or
    a forced reload) and both finished, the loader has run exactly twice,
    once for each caller, and callers that got a handle got two different
    objects. *)
Theorem two_misses_two_loads st role f1 f2 model_id schedule st' r1 r2 :
  resolve (model_size st) role = Some model_id ->
  run_observed schedule (st, AtEntry role f1, AtEntry role f2)
  = (st', Finished r1, Finished r2, true, true) ->
  model_loads st' = (model_loads st ++ [model_id; model_id])%list
  /\ (forall h1 h2, r1 = Ok h1 -> r2 = Ok h2 -> oid_of h1 <> oid_of h2).
Proof.
  intros Hres Hrun.
  assert (two_loads role (model_size st) model_id (model_loads st)
            (run_observed schedule (st, AtEntry role f1, AtEntry role f2))) as Hfinal.
  { apply two_loads_run; [done|].
    simpl. rewrite app_nil_r. repeat split; done. }
  rewrite Hrun in Hfinal.
  destruct Hfinal as (_ & Hl & _ & _ & Hdist). simpl in Hl.
  split; [done|].
  intros h1 h2 -> ->. by apply Hdist.
Qed.

(** C3 (as the code has it): when a call [load_model(R)] without
    [force_reload] returns a handle, a second such call returns the very
    same handle, runs no loader and leaves the cache as the first call left
    it, so that the loader ran at most once over the two calls.  For a
    role of the active profile the first call does return a handle when
    the role is cached or the loader succeeds; when the loader fails, the
    second call runs the loader again. *)
Theorem load_model_twice st role :
  (forall st1 h,
     load_model role false st = (st1, Ok h) ->
     exists st2,
       load_model role false st1 = (st2, Ok h)
       /\ models st2 = models st1
       /\ model_size st2 = model_size st1
       /\ model_loads st2 = model_loads st1
       /\ next_oid st2 = next_oid st1
       /\ (length (model_loads st2) <= length (model_loads st) + 1)%nat)
  /\ (forall model_id,
        resolve (model_size st) role = Some model_id ->
        is_Some (models st !! role)
        \/ model_pretrained (length (model_loads st)) model_id = None ->
        exists st1 h, load_model role false st = (st1, Ok h))
  /\ (forall model_id e,
        resolve (model_size st) role = Some model_id ->
        models st !! role = None ->
        model_pretrained (length (model_loads st)) model_id = Some e ->
        exists st1 st2 r,
          load_model role false st = (st1, Raise e)
          /\ load_model role false st1 = (st2, r)
          /\ model_loads st2 = (model_loads st ++ [model_id; model_id])%list).
Proof.
  split_and!.
  - intros st1 h Hfirst.
    destruct (load_model_returns_cached _ _ _ _ _ Hfirst) as (Hh & _ & Hcount).
    exists (add_log (INFO, "Using cached " +:+ role +:+ " model") st1).
    split; [by apply load_model_hit|]. simpl. done.
  - intros model_id Hres [[h Hh]|Hok].
    + rewrite (load_model_hit _ _ _ Hh). eauto.
    + destruct (models st !! role) as [h|] eqn:Hh.
      { rewrite (load_model_hit _ _ _ Hh). eauto. }
      assert (cached role st && negb false = false) as Hmiss.
      { apply cached_false in Hh. by rewrite Hh. }
      destruct (load_model_success _ _ _ _ Hmiss Hres Hok) as (st' & Heq & _).
      eauto.
  - intros model_id e Hres Hnone Hfail.
    assert (cached role st && negb false = false) as Hmiss.
    { apply cached_false in Hnone. by rewrite Hnone. }
    destruct (load_model_failure _ _ _ _ _ Hmiss Hres Hfail)
      as (st1 & Heq & Hm & Hs & Hl & _).
    assert (cached role st1 && negb false = false) as Hmiss1.
    { assert (cached role st1 = false) as ->; [|done].
      apply cached_false. by rewrite Hm. }
    rewrite <- Hs in Hres.
    destruct (model_pretrained (length (model_loads st1)) model_id) as [e'|] eqn:Hp.
    + destruct (load_model_failure _ _ _ _ _ Hmiss1 Hres Hp) as (st2 & Heq2 & _ & _ & Hl2 & _).
      exists st1, st2, (Raise e'). split_and!; try done.
      by rewrite Hl2, Hl, <- app_assoc.
    + destruct (load_model_success _ _ _ _ Hmiss1 Hres Hp) as (st2 & Heq2 & _ & _ & Hl2 & _).
      exists st1, st2. eexists. split_and!; try done.
      by rewrite Hl2, Hl, <- app_assoc.
Qed.

(** C4 (as the code has it): for a key that the active profile does not
    define, [load_model] never changes the cache; it raises [ValueError]
    (the specification's ConfigurationError) unless the key is already
    cached and [force_reload] is off, in which case the cached entry is
    returned without any check of the profile.  Under the cache invariant
    the only such key is that of the tokenizer slot. *)
Theorem load_model_undefined_role st role force :
  is_Some (assoc (model_size st) MODEL_SIZES) ->
  resolve (model_size st) role = None ->
  models (state_of (load_model role force st)) = models st
  /\ model_size (state_of (load_model role force st)) = model_size st
  /\ model_loads (state_of (load_model role force st)) = model_loads st
  /\ (cached role st && negb force = false ->
      exists msg, value_of (load_model role force st) = Raise (ValueError msg))
  /\ (cached role st && negb force = true ->
      exists h, models st !! role = Some h
                /\ value_of (load_model role force st) = Ok h)
  /\ (cache_inv st -> cached role st = true -> role = "tokenizer").
Proof.
  intros [profile Hsz] Hres.
  assert (cache_inv st -> cached role st = true -> role = "tokenizer") as Htok.
  { intros Hinv Hc. apply cached_true in Hc.
    destruct (decide (role = "tokenizer")) as [|Hne]; [done|].
    specialize (Hinv _ Hc Hne). rewrite Hres in Hinv. by destruct Hinv. }
  unfold resolve in Hres. rewrite Hsz in Hres.
  destruct (cached role st && negb force) eqn:Hmiss.
  - apply andb_true_iff in Hmiss as [Hc Hf].
    apply cached_true in Hc as [h Hh]. destruct force; [done|].
    rewrite (load_model_hit _ _ _ Hh). simpl.
    split_and!; try done. eauto.
  - rewrite (load_model_unknown _ _ _ profile) by done. simpl.
    split_and!; try done. eauto.
Qed.

(** C5 (as the code has it): when the loader raises on a miss (or a forced
    reload) of a role of the active profile, [load_model] logs the failure
    and re-raises the loader's own exception, unchanged; the cache and the
    active size are as before the call. *)
Theorem load_model_failure_reraises st role force model_id e :
  resolve (model_size st) role = Some model_id ->
  cached role st && negb force = false ->
  model_pretrained (length (model_loads st)) model_id = Some e ->
  exists st',
    load_model role force st = (st', Raise e)
    /\ models st' = models st
    /\ model_size st' = model_size st
    /\ model_loads st' = (model_loads st ++ [model_id])%list
    /\ last (log st')
       = Some (ERROR, "Failed to load " +:+ role +:+ " model: " +:+ str_exn e).
Proof.
  intros Hres Hmiss Hfail.
  destruct (load_model_failure _ _ _ _ _ Hmiss Hres Hfail)
    as (st' & Heq & Hm & Hs & Hl & _ & Hlog).
  exists st'. split_and!; try done.
  rewrite Hlog, last_app. done.
Qed.

(** C10: from a freshly constructed manager, whatever calls are made and
    however the loaders behave, every cached key other than the tokenizer
    slot is a model type that the active size defines. *)
Theorem cache_inv_reachable size cs : cache_inv (run_calls cs (init size)).
Proof.
  unfold run_calls. rewrite <- fold_left_rev_right.
  induction (rev cs) as [|c cs' IH]; simpl.
  - intros k Hk _. simpl in Hk. rewrite lookup_empty in Hk. by destruct Hk.
  - by apply cache_inv_call.
Qed.

(** *** Further properties of the manager *)

(** What a well-formed cache entry looks like under a given active size:
    the tokenizer slot holds the shared tokenizer; any other key holds the
    model that the size binds it to, on the manager's device and dtype,
    out of training mode. *)
Definition entry_ok (size k : string) (h : Handle) : Prop :=
  if decide (k = "tokenizer")
  then h = Qwen3TTSTokenizer (oid_of h) TOKENIZER_MODEL get_device
  else exists model_id,
         resolve size k = Some model_id
         /\ h = Qwen3TTSModel (oid_of h) model_id get_device get_optimal_dtype
                              "eager" true false.

(** Every entry is well formed and was allocated by this manager, and no
    two keys share an object. *)
Definition cache_wf (st : State) : Prop :=
  (forall k h, models st !! k = Some h ->
               entry_ok (model_size st) k h /\ (oid_of h < next_oid st)%nat)
  /\ (forall k1 k2 h1 h2,
        models st !! k1 = Some h1 -> models st !! k2 = Some h2 ->
        oid_of h1 = oid_of h2 -> k1 = k2).

(** What one call can do to the cache, the active size and the allocator. *)
Inductive core_step (st st' : State) : Prop :=
  | core_same :
      models st' = models st -> model_size st' = model_size st ->
      next_oid st' = next_oid st -> core_step st st'
  | core_insert k h :
      models st' = <[k := h]> (models st) -> model_size st' = model_size st ->
      next_oid st' = S (next_oid st) -> oid_of h = next_oid st ->
      entry_ok (model_size st) k h -> core_step st st'
  | core_delete k :
      models st' = delete k (models st) -> model_size st' = model_size st ->
      next_oid st' = next_oid st -> core_step st st'
  | core_clear :
      models st' = ∅ -> next_oid st' = next_oid st -> core_step st st'.

Lemma resolve_tokenizer size : resolve size "tokenizer" = None.
Proof.
  unfold resolve, MODEL_SIZES, assoc.
  repeat (destruct (String.eqb size _); [reflexivity|]). reflexivity.
Qed.

Lemma resolved_is_not_tokenizer size k model_id :
  resolve size k = Some model_id -> k <> "tokenizer".
Proof. intros Hres ->. by rewrite resolve_tokenizer in Hres. Qed.

Lemma load_tokenizer_hit st h :
  models st !! "tokenizer" = Some h ->
  load_tokenizer false st = (add_log (INFO, "Using cached tokenizer") st, Ok h).
Proof.
  intros Hh. unfold load_tokenizer. run_m.
  assert (cached "tokenizer" st = true) as -> by (apply cached_true; eauto).
  simpl. unfold models_getitem. simpl. by rewrite Hh.
Qed.

Lemma load_tokenizer_failure st force e :
  cached "tokenizer" st && negb force = false ->
  tokenizer_pretrained (tokenizer_loads st) = Some e ->
  exists st',
    load_tokenizer force st = (st', Raise e)
    /\ models st' = models st /\ model_size st' = model_size st
    /\ next_oid st' = next_oid st /\ model_loads st' = model_loads st
    /\ tokenizer_loads st' = S (tokenizer_loads st)
    /\ last (log st') = Some (ERROR, "Failed to load tokenizer: " +:+ str_exn e).
Proof.
  intros Hmiss Hfail. unfold load_tokenizer. run_m. rewrite Hmiss.
  unfold Qwen3TTSTokenizer_from_pretrained. simpl. rewrite Hfail.
  eexists. split; [reflexivity|]. simpl. split_and!; try done.
  rewrite <- app_assoc. by rewrite last_app.
Qed.

Lemma load_tokenizer_success st force :
  cached "tokenizer" st && negb force = false ->
  tokenizer_pretrained (tokenizer_loads st) = None ->
  exists st',
    load_tokenizer force st
    = (st', Ok (Qwen3TTSTokenizer (next_oid st) TOKENIZER_MODEL get_device))
    /\ models st'
       = <["tokenizer" := Qwen3TTSTokenizer (next_oid st) TOKENIZER_MODEL get_device]>
           (models st)
    /\ model_size st' = model_size st
    /\ next_oid st' = S (next_oid st) /\ model_loads st' = model_loads st
    /\ tokenizer_loads st' = S (tokenizer_loads st).
Proof.
  intros Hmiss Hok. unfold load_tokenizer. run_m. rewrite Hmiss.
  unfold Qwen3TTSTokenizer_from_pretrained. simpl. rewrite Hok.
  eexists. split; [reflexivity|]. simpl. done.
Qed.

Lemma call_core c st : core_step st (call c st).
Proof.
  destruct c as [role force|force|size|role|]; simpl.
  - destruct (cached role st && negb force) eqn:Hmiss.
    { apply andb_true_iff in Hmiss as [Hc Hf].
      apply cached_true in Hc as [h' Hh']. destruct force; [done|].
      rewrite (load_model_hit _ _ _ Hh'). by apply core_same. }
    destruct (assoc (model_size st) MODEL_SIZES) as [profile|] eqn:Hsz.
    2: { rewrite load_model_no_profile by done. by apply core_same. }
    destruct (assoc role profile) as [model_id|] eqn:Hrole.
    2: { rewrite (load_model_unknown _ _ _ profile) by done. by apply core_same. }
    assert (resolve (model_size st) role = Some model_id) as Hres
      by (unfold resolve; by rewrite Hsz).
    destruct (model_pretrained (length (model_loads st)) model_id) as [e|] eqn:Hp.
    + destruct (load_model_failure _ _ _ _ _ Hmiss Hres Hp)
        as (st' & -> & Hm & Hs & _ & Hn & _).
      by apply core_same.
    + destruct (load_model_success _ _ _ _ Hmiss Hres Hp)
        as (st' & -> & Hm & Hs & _ & Hn).
      eapply core_insert; eauto.
      unfold entry_ok. rewrite decide_False by by eapply resolved_is_not_tokenizer.
      eauto.
  - destruct (cached "tokenizer" st && negb force) eqn:Hmiss.
    { apply andb_true_iff in Hmiss as [Hc Hf].
      apply cached_true in Hc as [h' Hh']. destruct force; [done|].
      rewrite (load_tokenizer_hit _ _ Hh'). by apply core_same. }
    destruct (tokenizer_pretrained (tokenizer_loads st)) as [e|] eqn:Hp.
    + destruct (load_tokenizer_failure _ _ _ Hmiss Hp) as (st' & -> & Hm & Hs & Hn & _).
      by apply core_same.
    + destruct (load_tokenizer_success _ _ Hmiss Hp) as (st' & -> & Hm & Hs & Hn & _).
      eapply core_insert; eauto. unfold entry_ok. by rewrite decide_True.
  - unfold set_model_size.
    destruct (contains MODEL_SIZES size); simpl; [|by apply core_same].
    run_m. destruct (String.eqb size (model_size st)); simpl; [by apply core_same|].
    match goal with |- context [clear_cache ?s] =>
      destruct (clear_cache_spec s) as (st' & -> & Hm & _ & _ & Hn)
    end.
    simpl. by apply core_clear.
  - unfold unload_model. run_m.
    destruct (cached role st) eqn:Hc; simpl; [|by apply core_same].
    apply cached_true in Hc as [h Hh]. unfold models_delitem. rewrite Hh. simpl.
    by eapply core_delete.
  - destruct (clear_cache_spec st) as (st' & Heq & Hm & _ & _ & Hn).
    unfold state_of. rewrite Heq. simpl. by apply core_clear.
Qed.

Lemma cache_wf_step st st' : core_step st st' -> cache_wf st -> cache_wf st'.
Proof.
  intros Hstep [Hent Hinj].
  destruct Hstep as [Hm Hs Hn|k h Hm Hs Hn Hoid Hok|k Hm Hs Hn|Hm Hn].
  - split; intros *; rewrite ?Hm, ?Hs, ?Hn; eauto.
  - split.
    + intros k' h'. rewrite Hm, Hs, Hn. intros Hk'.
      destruct (decide (k = k')) as [->|Hne].
      * rewrite lookup_insert_eq in Hk'. simplify_eq. split; [done|lia].
      * rewrite lookup_insert_ne in Hk' by done.
        destruct (Hent _ _ Hk') as [? ?]. split; [done|lia].
    + intros k1 k2 h1 h2. rewrite Hm. intros H1 H2 Heq.
      destruct (decide (k = k1)) as [Heq1|Hne1], (decide (k = k2)) as [Heq2|Hne2].
      * congruence.
      * subst k1. rewrite lookup_insert_eq in H1. rewrite lookup_insert_ne in H2 by done.
        simplify_eq. destruct (Hent _ _ H2) as [_ ?]. lia.
      * subst k2. rewrite lookup_insert_eq in H2. rewrite lookup_insert_ne in H1 by done.
        simplify_eq. destruct (Hent _ _ H1) as [_ ?]. lia.
      * rewrite lookup_insert_ne in H1, H2 by done. eauto.
  - split.
    + intros k' h'. rewrite Hm, Hs, Hn. intros Hk'.
      apply lookup_delete_Some in Hk' as [_ Hk']. eauto.
    + intros k1 k2 h1 h2. rewrite Hm. intros H1 H2.
      apply lookup_delete_Some in H1 as [_ H1].
      apply lookup_delete_Some in H2 as [_ H2]. eauto.
  - split; intros *; rewrite Hm, lookup_empty; done.
Qed.

Lemma cache_wf_reachable size cs : cache_wf (run_calls cs (init size)).
Proof.
  unfold run_calls. rewrite <- fold_left_rev_right.
  induction (rev cs) as [|c cs' IH]; simpl.
  - split; intros *; simpl; rewrite lookup_empty; done.
  - eapply cache_wf_step; [apply call_core|done].
Qed.

Lemma set_model_size_changed st size :
  contains MODEL_SIZES size = true ->
  size <> model_size st ->
  exists st',
    set_model_size size st = (st', Ok tt)
    /\ models st' = ∅ /\ model_size st' = size
    /\ model_loads st' = model_loads st /\ next_oid st' = next_oid st.
Proof.
  intros Hvalid Hne. unfold set_model_size. rewrite Hvalid. run_m.
  assert (String.eqb size (model_size st) = false) as -> by (by apply String.eqb_neq).
  simpl.
  match goal with |- context [clear_cache ?s] =>
    destruct (clear_cache_spec s) as (st' & -> & Hm & _ & Hl & Hn)
  end.
  simpl. eexists. split; [reflexivity|]. simpl. done.
Qed.

Lemma load_model_miss_outcome st role force model_id :
  cached role st && negb force = false ->
  resolve (model_size st) role = Some model_id ->
  exists st' r,
    load_model role force st = (st', r)
    /\ model_loads st' = (model_loads st ++ [model_id])%list
    /\ model_size st' = model_size st
    /\ (model_pretrained (length (model_loads st)) model_id = None ->
        r = Ok (Qwen3TTSModel (next_oid st) model_id get_device get_optimal_dtype
                              "eager" true false)
        /\ models st'
           = <[role := Qwen3TTSModel (next_oid st) model_id get_device
                                     get_optimal_dtype "eager" true false]> (models st))
    /\ (forall e, model_pretrained (length (model_loads st)) model_id = Some e ->
        r = Raise e /\ models st' = models st).
Proof.
  intros Hmiss Hres.
  destruct (model_pretrained (length (model_loads st)) model_id) as [e|] eqn:Hp.
  - destruct (load_model_failure _ _ _ _ _ Hmiss Hres Hp) as (st' & Heq & Hm & Hs & Hl & _).
    exists st', (Raise e). split_and!; try done. intros e' ?. by simplify_eq.
  - destruct (load_model_success _ _ _ _ Hmiss Hres Hp) as (st' & Heq & Hm & Hs & Hl & _).
    do 2 eexists. split_and!; try done.
Qed.

(** X1: whatever calls were made before, a handle that [load_model]
    returns, from the cache or freshly loaded, is well formed for its key
    under the active size: for a model type it is the model that
    [MODEL_SIZES] binds the type to under that size, on the manager's
    device and dtype and out of training mode. *)
Theorem load_model_returns_current_model size cs role force st' h :
  load_model role force (run_calls cs (init size)) = (st', Ok h) ->
  entry_ok (model_size (run_calls cs (init size))) role h
  /\ cache_wf st'.
Proof.
  intros Hcall.
  pose proof (cache_wf_reachable size cs) as Hwf.
  pose proof (cache_wf_reachable size (cs ++ [CallLoadModel role force])) as Hwf'.
  unfold run_calls in Hwf'. rewrite fold_left_app in Hwf'. simpl in Hwf'.
  fold (run_calls cs (init size)) in Hwf'. unfold state_of in Hwf'.
  rewrite Hcall in Hwf'. simpl in Hwf'. split; [|done].
  destruct (load_model_returns_cached _ _ _ _ _ Hcall) as (Hh & Hs & _).
  destruct Hwf' as [Hent _]. destruct (Hent _ _ Hh) as [Hok _].
  by rewrite Hs in Hok.
Qed.

(** X2: a forced reload of a cached role runs the loader once; when it
    succeeds the entry is replaced by a new object, which later plain
    calls return; when it fails the old entry stays and is still served. *)
Theorem forced_reload st role old model_id :
  models st !! role = Some old ->
  resolve (model_size st) role = Some model_id ->
  (oid_of old < next_oid st)%nat ->
  (model_pretrained (length (model_loads st)) model_id = None ->
   exists st' h,
     load_model role true st = (st', Ok h)
     /\ oid_of h = next_oid st /\ oid_of h <> oid_of old
     /\ models st' = <[role := h]> (models st)
     /\ model_loads st' = (model_loads st ++ [model_id])%list
     /\ value_of (load_model role false st') = Ok h)
  /\ (forall e,
        model_pretrained (length (model_loads st)) model_id = Some e ->
        exists st',
          load_model role true st = (st', Raise e)
          /\ models st' = models st
          /\ model_loads st' = (model_loads st ++ [model_id])%list
          /\ value_of (load_model role false st') = Ok old).
Proof.
  intros Hold Hres Hoid.
  assert (cached role st && negb true = false) as Hmiss by apply andb_false_r.
  destruct (load_model_miss_outcome _ _ _ _ Hmiss Hres)
    as (st' & r & Heq & Hl & Hs & Hok & Hfail).
  split.
  - intros Hp. destruct (Hok Hp) as [-> Hm].
    do 2 eexists. split; [exact Heq|]. simpl. split_and!; try done; [lia|].
    erewrite load_model_hit; [done|]. rewrite Hm. apply lookup_insert_eq.
  - intros e Hp. destruct (Hfail _ Hp) as [-> Hm].
    exists st'. split_and!; try done.
    erewrite load_model_hit; [done|]. by rewrite Hm.
Qed.

(** X3: [unload_model] never raises; it removes the one key and nothing
    else, is a no-op on a key that is not cached, and after it the next
    [load_model] of that role runs the loader again and returns a new
    object. *)
Theorem unload_model_effect st role :
  value_of (unload_model role st) = Ok tt
  /\ models (state_of (unload_model role st)) = delete role (models st)
  /\ model_size (state_of (unload_model role st)) = model_size st
  /\ model_loads (state_of (unload_model role st)) = model_loads st
  /\ (models st !! role = None -> unload_model role st = (st, Ok tt))
  /\ (forall old model_id,
        models st !! role = Some old ->
        resolve (model_size st) role = Some model_id ->
        (oid_of old < next_oid st)%nat ->
        model_pretrained (length (model_loads st)) model_id = None ->
        exists st' h,
          load_model role false (state_of (unload_model role st)) = (st', Ok h)
          /\ oid_of h <> oid_of old
          /\ model_loads st' = (model_loads st ++ [model_id])%list).
Proof.
  assert (exists st1,
            unload_model role st = (st1, Ok tt)
            /\ models st1 = delete role (models st)
            /\ model_size st1 = model_size st /\ model_loads st1 = model_loads st
            /\ next_oid st1 = next_oid st
            /\ (models st !! role = None -> st1 = st)) as (st1 & Heq & Hm & Hs & Hl & Hn & Hid).
  { unfold unload_model. run_m. destruct (cached role st) eqn:Hc; simpl.
    - apply cached_true in Hc as [h Hh]. unfold models_delitem. rewrite Hh. simpl.
      eexists. split; [reflexivity|]. simpl. split_and!; try done.
      all: intros Hnone; by rewrite Hnone in Hh.
    - apply cached_false in Hc. exists st. split_and!; try done.
      by rewrite delete_id. }
  unfold value_of, state_of. rewrite Heq. simpl. split_and!; try done.
  - intros Hnone. by rewrite (Hid Hnone).
  - intros old model_id Hold Hres Hoid Hp.
    assert (cached role st1 && negb false = false) as Hmiss.
    { assert (cached role st1 = false) as ->; [|done].
      apply cached_false. rewrite Hm. apply lookup_delete_eq. }
    rewrite <- Hs in Hres.
    destruct (load_model_miss_outcome _ _ _ _ Hmiss Hres)
      as (st' & r & Hload & Hl' & _ & Hok & _).
    rewrite Hl in Hok, Hl'. destruct (Hok Hp) as [-> _].
    do 2 eexists. split; [exact Hload|]. simpl. rewrite Hn. split; [lia|done].
Qed.

(** X4: [set_model_size] with a size that [MODEL_SIZES] does not have
    raises [ValueError] and changes nothing; with the size that is already
    active (and valid) it is a complete no-op: the cache stays as it is. *)
Theorem set_model_size_without_switch st size :
  (contains MODEL_SIZES size = false ->
   set_model_size size st
   = (st, Raise (ValueError ("Invalid model size: " +:+ size +:+ ". Available: "
                             +:+ repr_list (keys MODEL_SIZES)))))
  /\ (contains MODEL_SIZES size = true -> size = model_size st ->
      set_model_size size st = (st, Ok tt))
  /\ (value_of (set_model_size size st) = Ok tt <-> contains MODEL_SIZES size = true).
Proof.
  split_and!.
  - intros Hinv. unfold set_model_size. by rewrite Hinv.
  - intros Hvalid ->. unfold set_model_size. rewrite Hvalid. run_m.
    by rewrite String.eqb_refl.
  - destruct (contains MODEL_SIZES size) eqn:Hvalid.
    + split; [done|]. intros _.
      destruct (decide (size = model_size st)) as [->|Hne].
      * unfold set_model_size. rewrite Hvalid. run_m. by rewrite String.eqb_refl.
      * destruct (set_model_size_changed _ _ Hvalid Hne) as (st' & Heq & _).
        unfold value_of. by rewrite Heq.
    + unfold set_model_size. rewrite Hvalid. simpl. split; [done|done].
Qed.

(** X5: after a switch to another valid size, the next [load_model] of a
    role never serves what was cached before: it calls the loader with the
    identifier that the new size binds the role to, and returns that
    model (or the loader's exception). *)
Theorem switch_then_load st size role model_id :
  contains MODEL_SIZES size = true ->
  size <> model_size st ->
  resolve size role = Some model_id ->
  exists st2 r,
    load_model role false (state_of (set_model_size size st)) = (st2, r)
    /\ model_loads st2 = (model_loads st ++ [model_id])%list
    /\ model_size st2 = size
    /\ (model_pretrained (length (model_loads st)) model_id = None ->
        r = Ok (Qwen3TTSModel (next_oid st) model_id get_device get_optimal_dtype
                              "eager" true false))
    /\ (forall e, model_pretrained (length (model_loads st)) model_id = Some e ->
        r = Raise e).
Proof.
  intros Hvalid Hne Hres.
  destruct (set_model_size_changed _ _ Hvalid Hne) as (st1 & Heq & Hm & Hs & Hl & Hn).
  unfold state_of. rewrite Heq. simpl.
  assert (cached role st1 && negb false = false) as Hmiss.
  { assert (cached role st1 = false) as ->; [|done].
    apply cached_false. rewrite Hm. apply lookup_empty. }
  rewrite <- Hs in Hres.
  destruct (load_model_miss_outcome _ _ _ _ Hmiss Hres)
    as (st2 & r & Hload & Hl' & Hs' & Hok & Hfail).
  rewrite Hl, Hn in *. exists st2, r. split_and!; try done.
  - congruence.
  - intros Hp. by destruct (Hok Hp).
  - intros e Hp. by destruct (Hfail _ Hp).
Qed.

(** X6: [load_tokenizer] keeps the same contract for its own slot: once a
    call has returned a handle the next call returns that handle without
    loading; a failed load re-raises the loader's exception and leaves
    the cache as it was; and no call touches a model entry or runs the
    model loader. *)
Theorem load_tokenizer_contract st :
  (forall st1 h,
     load_tokenizer false st = (st1, Ok h) ->
     exists st2,
       load_tokenizer false st1 = (st2, Ok h)
       /\ models st2 = models st1
       /\ tokenizer_loads st2 = tokenizer_loads st1)
  /\ (forall force e,
        cached "tokenizer" st && negb force = false ->
        tokenizer_pretrained (tokenizer_loads st) = Some e ->
        exists st', load_tokenizer force st = (st', Raise e) /\ models st' = models st)
  /\ (forall force k,
        k <> "tokenizer" ->
        models (state_of (load_tokenizer force st)) !! k = models st !! k)
  /\ (forall force,
        model_loads (state_of (load_tokenizer force st)) = model_loads st
        /\ model_size (state_of (load_tokenizer force st)) = model_size st).
Proof.
  assert (forall force,
            exists st' r, load_tokenizer force st = (st', r)
              /\ model_loads st' = model_loads st /\ model_size st' = model_size st
              /\ (models st' = models st
                  \/ exists h, r = Ok h /\ models st' = <["tokenizer" := h]> (models st))
              /\ (forall h, r = Ok h -> models st' !! "tokenizer" = Some h)) as Hcases.
  { intros force. destruct (cached "tokenizer" st && negb force) eqn:Hmiss.
    - apply andb_true_iff in Hmiss as [Hc Hf].
      apply cached_true in Hc as [h' Hh']. destruct force; [done|].
      rewrite (load_tokenizer_hit _ _ Hh'). do 2 eexists. split; [reflexivity|].
      simpl. split_and!; try done; [by left|]. intros h ?. by simplify_eq.
    - destruct (tokenizer_pretrained (tokenizer_loads st)) as [e|] eqn:Hp.
      + destruct (load_tokenizer_failure _ _ _ Hmiss Hp)
          as (st' & -> & Hm & Hs & _ & Hl & _).
        do 2 eexists. split; [reflexivity|]. split_and!; try done. by left.
      + destruct (load_tokenizer_success _ _ Hmiss Hp)
          as (st' & -> & Hm & Hs & _ & Hl & _).
        do 2 eexists. split; [reflexivity|]. split_and!; try done.
        * right. eauto.
        * intros h ?. simplify_eq. rewrite Hm. apply lookup_insert_eq. }
  split_and!.
  - intros st1 h Hfirst.
    destruct (Hcases false) as (st' & r & Heq & _ & _ & _ & Hcached).
    rewrite Heq in Hfirst. simplify_eq.
    rewrite (load_tokenizer_hit _ _ (Hcached _ eq_refl)).
    eexists. split; [reflexivity|]. done.
  - intros force e Hmiss Hp.
    destruct (load_tokenizer_failure _ _ _ Hmiss Hp) as (st' & -> & Hm & _).
    eauto.
  - intros force k Hne.
    destruct (Hcases force) as (st' & r & -> & _ & _ & [Hm|(h & _ & Hm)] & _);
      simpl; rewrite Hm; [done|]. by rewrite lookup_insert_ne.
  - intros force. destruct (Hcases force) as (st' & r & -> & Hl & Hs & _). done.
Qed.

(** X24: [load_model] touches no cache entry but its own: whatever the
    outcome, every other key, the tokenizer slot included, holds what it
    held before, the active size is unchanged and the tokenizer loader is
    not called; so the three roles can all be cached at once. *)
Theorem load_model_leaves_other_entries st role force :
  (forall k, k <> role ->
     models (state_of (load_model role force st)) !! k = models st !! k)
  /\ model_size (state_of (load_model role force st)) = model_size st
  /\ tokenizer_loads (state_of (load_model role force st)) = tokenizer_loads st
  /\ (forall h, value_of (load_model role force st) = Ok h ->
        models (state_of (load_model role force st)) !! role = Some h).
Proof.
  split_and!.
  - intros k Hne.
    destruct (load_model_frame st role force) as [_ [Hm|(h & _ & Hm)]]; rewrite Hm;
      [done|]. by rewrite lookup_insert_ne.
  - by destruct (load_model_frame st role force).
  - unfold load_model, Qwen3TTSModel_from_pretrained, models_getitem, getitem,
      optimize_for_cpu, import_torch_dynamo, set_suppress_errors. run_m.
    repeat case_match; simplify_eq; reflexivity.
  - intros h Hvalue.
    destruct (load_model role force st) as [st1 r] eqn:Hcall.
    unfold value_of in Hvalue. simpl in Hvalue. subst r.
    by destruct (load_model_returns_cached _ _ _ _ _ Hcall).
Qed.

End Env.

(** *** Concrete runs *)

(** A CPU-only process whose loaders always succeed, and one that is off
    line, so that every model download fails. *)
Definition loaders_ok : nat -> string -> option PyExn := fun _ _ => None.
Definition tokenizer_ok : nat -> option PyExn := fun _ => None.
Definition network_down : PyExn := mkExn "OSError" ["Network is unreachable"].
Definition loaders_offline : nat -> string -> option PyExn :=
  fun _ _ => Some network_down.

(** The manager as constructed by default, and after [load_tokenizer()]. *)
Definition fresh : State := init false "1.7B".
Definition with_tokenizer : State :=
  state_of (load_tokenizer false tokenizer_ok false fresh).

Example invalid_model_size :
  set_model_size false "3B" fresh
  = (fresh, Raise (ValueError "Invalid model size: 3B. Available: ['0.6B', '1.7B']")).
Proof. vm_compute. reflexivity. Qed.

Example unknown_model_type :
  load_model false loaders_ok true None "flac" false fresh
  = (fresh,
     Raise (ValueError ("Unknown model type: flac. Available: "
                        +:+ "['custom_voice', 'voice_design', 'voice_clone']"))).
Proof. vm_compute. reflexivity. Qed.

Lemma set_model_size_switch_witness :
  model_size (state_of (set_model_size false "0.6B" with_tokenizer)) = "0.6B".
Proof.
  destruct (set_model_size_switch false with_tokenizer "0.6B")
    as (st' & _ & _ & _ & _ & _ & Hsize).
  - reflexivity.
  - discriminate.
  - exact Hsize.
Defined.

(** C1, as the specification states it, fails: the tokenizer that
    [load_tokenizer()] cached is gone after a switch from 1.7B to 0.6B. *)
Lemma set_model_size_evicts_tokenizer :
  models with_tokenizer !! "tokenizer"
  = Some (Qwen3TTSTokenizer 0 TOKENIZER_MODEL "cpu")
  /\ models (state_of (set_model_size false "0.6B" with_tokenizer)) !! "tokenizer"
     = None.
Proof. split; vm_compute; reflexivity. Qed.

Definition custom_voice_1_7B : Handle :=
  Qwen3TTSModel 0 "Qwen/Qwen3-TTS-12Hz-1.7B-CustomVoice" "cpu" float32 "eager" true false.

Lemma load_model_twice_witness :
  value_of
    (load_model false loaders_ok true None "custom_voice" false
       (state_of (load_model false loaders_ok true None "custom_voice" false fresh)))
  = Ok custom_voice_1_7B.
Proof.
  destruct (load_model_twice false loaders_ok true None fresh "custom_voice")
    as (Hsame & _ & _).
  destruct (Hsame (state_of (load_model false loaders_ok true None "custom_voice"
                               false fresh))
                  custom_voice_1_7B)
    as (st2 & Hsecond & _).
  - vm_compute. reflexivity.
  - unfold value_of. rewrite Hsecond. reflexivity.
Defined.

(** C3, as the specification states it, fails: with a download that fails
    once and then succeeds, the first call raises, the second call runs the
    loader a second time, returns a handle and puts it in the cache. *)
Definition loaders_fail_once : nat -> string -> option PyExn :=
  fun n _ => match n with O => Some network_down | S _ => None end.

Definition after_failed_load : State :=
  state_of (load_model false loaders_fail_once true None "custom_voice" false fresh).

Lemma load_model_retries_after_failure :
  value_of (load_model false loaders_fail_once true None "custom_voice" false fresh)
  = Raise network_down
  /\ models after_failed_load !! "custom_voice" = None
  /\ value_of (load_model false loaders_fail_once true None "custom_voice" false
                 after_failed_load)
     = Ok custom_voice_1_7B
  /\ models (state_of (load_model false loaders_fail_once true None "custom_voice" false
                         after_failed_load)) !! "custom_voice"
     = Some custom_voice_1_7B
  /\ length (model_loads
               (state_of (load_model false loaders_fail_once true None "custom_voice"
                            false after_failed_load))) = 2%nat.
Proof. split_and!; vm_compute; reflexivity. Qed.

Lemma load_model_undefined_role_witness :
  exists msg,
    value_of (load_model false loaders_ok true None "flac" false fresh)
    = Raise (ValueError msg).
Proof.
  destruct (load_model_undefined_role false loaders_ok true None fresh "flac" false)
    as (_ & _ & _ & Hraise & _ & _).
  - vm_compute. eauto.
  - reflexivity.
  - apply Hraise. reflexivity.
Defined.

(** C4, as the specification states it, fails: "tokenizer" is not a model
    type of the 1.7B profile, yet once the tokenizer is cached
    [load_model("tokenizer")] returns it instead of raising. *)
Lemma load_model_returns_cached_tokenizer :
  resolve (model_size with_tokenizer) "tokenizer" = None
  /\ value_of (load_model false loaders_ok true None "tokenizer" false with_tokenizer)
     = Ok (Qwen3TTSTokenizer 0 TOKENIZER_MODEL "cpu").
Proof. split; vm_compute; reflexivity. Qed.

Lemma load_model_failure_reraises_witness :
  value_of (load_model false loaders_offline true None "voice_clone" false fresh)
  = Raise network_down.
Proof.
  destruct (load_model_failure_reraises false loaders_offline true None fresh
              "voice_clone" false "Qwen/Qwen3-TTS-12Hz-1.7B-Base" network_down)
    as (st' & Hcall & _).
  - reflexivity.
  - reflexivity.
  - reflexivity.
  - unfold value_of. rewrite Hcall. reflexivity.
Defined.

(** C5, as the specification states it, fails: what [load_model] raises
    when the download fails is the loader's [OSError]; it is no
    ModelLoadError and names neither the role nor the identifier. *)
Lemma load_model_failure_is_not_ModelLoadError :
  value_of (load_model false loaders_offline true None "voice_clone" false fresh)
  = Raise network_down
  /\ is_ModelLoadError_for network_down "voice_clone" "Qwen/Qwen3-TTS-12Hz-1.7B-Base"
     = false
  /\ mentions network_down "voice_clone" = false
  /\ mentions network_down "Qwen/Qwen3-TTS-12Hz-1.7B-Base" = false.
Proof. split_and!; vm_compute; reflexivity. Qed.

(** Two requests for the custom-voice model on a fresh manager, the threads
    taking turns: both test the cache before either has stored anything. *)
Definition taking_turns : list bool :=
  [false; true; false; true; false; true; false; true].

Definition two_requests : Config :=
  (fresh, AtEntry "custom_voice" false, AtEntry "custom_voice" false).

Definition custom_voice_1_7B_again : Handle :=
  Qwen3TTSModel 1 "Qwen/Qwen3-TTS-12Hz-1.7B-CustomVoice" "cpu" float32 "eager" true false.

Definition obs_state (x : Observed) : State := fst (fst (fst (fst x))).
Definition obs_threads (x : Observed) : Thread * Thread :=
  (snd (fst (fst (fst x))), snd (fst (fst x))).
Definition obs_missed (x : Observed) : bool * bool := (snd (fst x), snd x).

Lemma two_misses_two_loads_witness :
  model_loads (obs_state (run_observed false loaders_ok true None taking_turns two_requests))
  = [ "Qwen/Qwen3-TTS-12Hz-1.7B-CustomVoice"; "Qwen/Qwen3-TTS-12Hz-1.7B-CustomVoice" ].
Proof.
  destruct (two_misses_two_loads false loaders_ok true None fresh "custom_voice" false false
              "Qwen/Qwen3-TTS-12Hz-1.7B-CustomVoice" taking_turns
              (obs_state (run_observed false loaders_ok true None taking_turns two_requests))
              (Ok custom_voice_1_7B) (Ok custom_voice_1_7B_again))
    as [Hloads _].
  - reflexivity.
  - vm_compute. reflexivity.
  - rewrite Hloads. reflexivity.
Defined.

(** C2, as the specification states it, fails: both calls miss the cache,
    the loader runs twice, and the callers receive two different objects. *)
Lemma concurrent_misses_load_twice :
  obs_missed (run_observed false loaders_ok true None taking_turns two_requests)
  = (true, true)
  /\ obs_threads (run_observed false loaders_ok true None taking_turns two_requests)
     = (Finished (Ok custom_voice_1_7B), Finished (Ok custom_voice_1_7B_again))
  /\ length (model_loads
               (obs_state (run_observed false loaders_ok true None taking_turns
                             two_requests))) = 2%nat
  /\ oid_of custom_voice_1_7B = 0%nat
  /\ oid_of custom_voice_1_7B_again = 1%nat.
Proof. split_and!; vm_compute; reflexivity. Qed.

(** *** Further concrete runs *)

Definition with_custom_voice : State :=
  state_of (load_model false loaders_ok true None "custom_voice" false fresh).

Lemma load_model_returns_current_model_witness :
  entry_ok false "1.7B" "custom_voice" custom_voice_1_7B.
Proof.
  destruct (load_model_returns_current_model false loaders_ok true tokenizer_ok None
              "1.7B" [] "custom_voice" false with_custom_voice custom_voice_1_7B)
    as [Hok _].
  - vm_compute. reflexivity.
  - exact Hok.
Defined.

Lemma forced_reload_witness :
  value_of (load_model false loaders_offline true None "custom_voice" true with_custom_voice)
  = Raise network_down
  /\ models
       (state_of (load_model false loaders_offline true None "custom_voice" true
                    with_custom_voice)) !! "custom_voice"
     = Some custom_voice_1_7B.
Proof.
  destruct (forced_reload false loaders_offline true None with_custom_voice
              "custom_voice" custom_voice_1_7B "Qwen/Qwen3-TTS-12Hz-1.7B-CustomVoice")
    as [_ Hfail].
  - vm_compute. reflexivity.
  - reflexivity.
  - vm_compute. lia.
  - destruct (Hfail network_down) as (st' & Hcall & Hm & _); [reflexivity|].
    unfold value_of, state_of. rewrite Hcall. simpl. split; [reflexivity|].
    rewrite Hm. vm_compute. reflexivity.
Defined.

Lemma switch_then_load_witness :
  value_of
    (load_model false loaders_ok true None "custom_voice" false
       (state_of (set_model_size false "0.6B" with_custom_voice)))
  = Ok (Qwen3TTSModel 1 "Qwen/Qwen3-TTS-12Hz-0.6B-CustomVoice" "cpu" float32
                      "eager" true false).
Proof.
  destruct (switch_then_load false loaders_ok true None with_custom_voice "0.6B"
              "custom_voice" "Qwen/Qwen3-TTS-12Hz-0.6B-CustomVoice")
    as (st2 & r & Hcall & _ & _ & Hok & _).
  - reflexivity.
  - discriminate.
  - reflexivity.
  - unfold value_of. rewrite Hcall. simpl. apply Hok. reflexivity.
Defined.

(** *** [get_available_models] and [AVAILABLE_MODELS] *)

(** [{**d, k: v}]: the items of [d], with [k] set to [v] (in place when
    [d] has the key, at the end otherwise). *)
Definition dict_with {V} (d : list (string * V)) (k : string) (v : V)
  : list (string * V) :=
  if contains d k
  then map (fun kv => if String.eqb (fst kv) k then (fst kv, v) else kv) d
  else (d ++ [(k, v)])%list.

(** [get_available_models(model_size)]; [default_size] is the module's
    [DEFAULT_MODEL_SIZE].  The fallback [MODEL_SIZES[DEFAULT_MODEL_SIZE]]
    is an argument of [dict.get], so it is evaluated first, whatever
    [model_size] is. *)
Definition get_available_models (default_size model_size : string)
  : result (list (string * string)) :=
  match assoc default_size MODEL_SIZES with
  | None => Raise (KeyError default_size)
  | Some fallback =>
      Ok (dict_with
            (match assoc model_size MODEL_SIZES with
             | Some profile => profile
             | None => fallback
             end)
            "tokenizer" TOKENIZER_MODEL)
  end.

(** [AVAILABLE_MODELS = get_available_models()], evaluated when the
    module is imported. *)
Definition AVAILABLE_MODELS (env_MODEL_SIZE : option string)
  : result (list (string * string)) :=
  get_available_models (DEFAULT_MODEL_SIZE env_MODEL_SIZE)
                       (DEFAULT_MODEL_SIZE env_MODEL_SIZE).

(** X7: when the default size (the [MODEL_SIZE] environment variable) is
    not a key of [MODEL_SIZES], [get_available_models] raises [KeyError]
    for every argument, and so does the import of the module; otherwise it
    returns the three roles of the requested size, or of the default size
    when the requested one is unknown, bound as [MODEL_SIZES] binds them,
    followed by the tokenizer. *)
Theorem get_available_models_spec default_size model_size :
  (assoc default_size MODEL_SIZES = None ->
   get_available_models default_size model_size = Raise (KeyError default_size))
  /\ (is_Some (assoc default_size MODEL_SIZES) ->
      exists d,
        get_available_models default_size model_size = Ok d
        /\ keys d = ["custom_voice"; "voice_design"; "voice_clone"; "tokenizer"]
        /\ assoc "tokenizer" d = Some TOKENIZER_MODEL
        /\ (forall role, role <> "tokenizer" ->
              assoc role d
              = resolve (if contains MODEL_SIZES model_size then model_size
                         else default_size) role))
  /\ (forall env,
        contains MODEL_SIZES (DEFAULT_MODEL_SIZE env) = false ->
        AVAILABLE_MODELS env = Raise (KeyError (DEFAULT_MODEL_SIZE env))).
Proof.
  split_and!.
  - intros Hnone. unfold get_available_models. by rewrite Hnone.
  - intros [fallback Hdef]. unfold get_available_models. rewrite Hdef.
    eexists. split; [reflexivity|].
    assert (forall role, role <> "tokenizer" -> String.eqb role "tokenizer" = false)
      as Hneq by (intros role Hne; by apply String.eqb_neq).
    unfold resolve, contains, MODEL_SIZES, assoc in *.
    destruct (String.eqb model_size "0.6B") eqn:E1,
             (String.eqb model_size "1.7B") eqn:E2,
             (String.eqb default_size "0.6B") eqn:E3,
             (String.eqb default_size "1.7B") eqn:E4;
      simplify_eq; (split; [reflexivity|]); (split; [reflexivity|]);
      intros role Hne; cbn; rewrite ?E1, ?E2, ?E3, ?E4, (Hneq role Hne);
      repeat (destruct (String.eqb role _); [reflexivity|]); reflexivity.
  - intros env Hinv. unfold AVAILABLE_MODELS, get_available_models.
    unfold contains in Hinv.
    destruct (assoc (DEFAULT_MODEL_SIZE env) MODEL_SIZES); done.
Qed.

Example available_models_default :
  AVAILABLE_MODELS None
  = Ok [ ("custom_voice", "Qwen/Qwen3-TTS-12Hz-1.7B-CustomVoice");
         ("voice_design", "Qwen/Qwen3-TTS-12Hz-1.7B-VoiceDesign");
         ("voice_clone", "Qwen/Qwen3-TTS-12Hz-1.7B-Base");
         ("tokenizer", "Qwen/Qwen3-TTS-Tokenizer-12Hz") ].
Proof. reflexivity. Qed.

Example available_models_bad_environment :
  AVAILABLE_MODELS (Some "3B") = Raise (KeyError "3B")
  /\ get_available_models "3B" "1.7B" = Raise (KeyError "3B").
Proof. split; reflexivity. Qed.

(** *** Voices and languages *)

(** Pre-built voices for the CustomVoice model: description and native
    language. *)
Definition AVAILABLE_VOICES : list (string * (string * string)) :=
  [ ("Vivian", ("Bright, slightly edgy young female voice", "Chinese"));
    ("Serena", ("Warm, gentle young female voice", "Chinese"));
    ("Uncle_Fu", ("Seasoned male voice with a low, mellow timbre", "Chinese"));
    ("Dylan", ("Youthful Beijing male voice with a clear, natural timbre",
               "Chinese (Beijing Dialect)"));
    ("Eric", ("Lively Chengdu male voice with a slightly husky brightness",
              "Chinese (Sichuan Dialect)"));
    ("Ryan", ("Dynamic male voice with strong rhythmic drive", "English"));
    ("Aiden", ("Sunny American male voice with a clear midrange", "English"));
    ("Ono_Anna", ("Playful Japanese female voice with a light, nimble timbre",
                  "Japanese"));
    ("Sohee", ("Warm Korean female voice with rich emotion", "Korean")) ].

Definition SUPPORTED_LANGUAGES : list string :=
  [ "Chinese"; "English"; "Japanese"; "Korean"; "German"; "French"; "Russian";
    "Portuguese"; "Spanish"; "Italian" ].

(** [Qwen3TTSModelManager.get_available_voices] and
    [Qwen3TTSModelManager.get_supported_languages]. *)
Definition get_available_voices : list (string * (string * string)) := AVAILABLE_VOICES.
Definition get_supported_languages : list string := SUPPORTED_LANGUAGES.

End ModelManager.

(** ** Binary64 arithmetic on small integers

    Python floats are IEEE 754 binary64, as Rocq's primitive floats are.
    What the audio code needs of them: an integer below 2^53 divided by
    itself is exactly 1.0, and divided by its double exactly 0.5. *)

Module Binary64.

(** The mantissa of the binary64 value of a positive integer below 2^53:
    its digits, shifted up to 53 of them. *)
Definition norm_mantissa (p : positive) : positive :=
  match (Zpos (digits2_pos p) - 53)%Z with
  | Zneg k => Pos.iter xO p k
  | _ => p
  end.

(** [float(n)] for an integer below 2^63 in absolute value. *)
Definition float_of_int (n : Z) : float :=
  if (n <? 0)%Z then PrimFloat.opp (PrimFloat.of_uint63 (Uint63.of_Z (- n)))
  else PrimFloat.of_uint63 (Uint63.of_Z n).

Lemma digits2_pos_iter_xO p k :
  digits2_pos (Pos.iter xO p k) = (digits2_pos p + k)%positive.
Proof.
  induction k as [|k IH] using Pos.peano_ind.
  - simpl. lia.
  - rewrite Pos.iter_succ. simpl. rewrite IH. lia.
Qed.

Lemma digits2_pos_bound p n :
  0 <= n -> Zpos p < 2 ^ n -> Zpos (digits2_pos p) <= n.
Proof.
  revert n. induction p as [p IH|p IH|]; intros n Hn Hp; simpl.
  - assert (n <> 0) by (intros ->; simpl in Hp; lia).
    replace n with (Z.succ (n - 1)) in Hp by lia.
    rewrite Z.pow_succ_r in Hp by lia.
    specialize (IH (n - 1)). lia.
  - assert (n <> 0) by (intros ->; simpl in Hp; lia).
    replace n with (Z.succ (n - 1)) in Hp by lia.
    rewrite Z.pow_succ_r in Hp by lia.
    specialize (IH (n - 1)). lia.
  - assert (n <> 0) by (intros ->; simpl in Hp; lia). lia.
Qed.

Lemma binary_round_aux_canonical m e :
  Zpos (digits2_pos m) = 53 -> -1074 <= e <= 971 ->
  binary_round_aux prec emax false (Zpos m) e loc_Exact = S754_finite false m e.
Proof.
  intros Hdig He.
  assert (fexp prec emax (53 + e) - e = 0) as Hfexp.
  { unfold fexp, emin, prec, emax. lia. }
  unfold binary_round_aux, shr_fexp.
  cbn [Zdigits2]. rewrite Hdig, Hfexp.
  cbn [shr shr_record_of_loc shr_m loc_of_shr_record round_nearest_even Zdigits2].
  rewrite Hdig, Hfexp.
  cbn [shr shr_m].
  assert ((e <=? emax - prec) = true) as ->.
  { apply Z.leb_le. unfold emax, prec. lia. }
  reflexivity.
Qed.

Lemma binary_normalize_small p :
  Zpos p < 2 ^ 53 ->
  binary_normalize prec emax (Zpos p) 0 false
  = S754_finite false (norm_mantissa p) (Zpos (digits2_pos p) - 53).
Proof.
  intros Hp. pose proof (digits2_pos_bound p 53 ltac:(lia) Hp) as Hd.
  unfold binary_normalize, binary_round, norm_mantissa.
  assert (fexp prec emax (Zpos (digits2_pos p) + 0) = Zpos (digits2_pos p) - 53) as ->.
  { unfold fexp, emin, prec, emax. lia. }
  unfold shl_align. rewrite Z.sub_0_r.
  destruct (Zpos (digits2_pos p) - 53) as [|q|q] eqn:Hq.
  - apply binary_round_aux_canonical; lia.
  - lia.
  - apply binary_round_aux_canonical; [|lia].
    rewrite digits2_pos_iter_xO. lia.
Qed.

Lemma SFdiv_self m e :
  SFdiv prec emax (S754_finite false m e) (S754_finite false m e)
  = S754_finite false 4503599627370496 (-52).
Proof.
  unfold SFdiv, SFdiv_core_binary. simpl Zdigits2.
  rewrite !Z.sub_diag.
  change (Z.min (fexp prec emax 0) 0) with (-53).
  change (0 - -53) with 53.
  cbv iota.
  rewrite Z.shiftl_mul_pow2 by lia.
  assert (Z.div_eucl (Zpos m * 2 ^ 53) (Zpos m) = (2 ^ 53, 0)) as ->.
  { pose proof (Z.div_eucl_eq (Zpos m * 2 ^ 53) (Zpos m) ltac:(lia)) as Heq.
    pose proof (Z.mod_pos_bound (Zpos m * 2 ^ 53) (Zpos m) ltac:(lia)) as Hb.
    unfold Z.modulo in Hb.
    destruct (Z.div_eucl (Zpos m * 2 ^ 53) (Zpos m)) as [q r].
    assert (q = 2 ^ 53) by nia. subst q. f_equal. lia. }
  assert (new_location (Zpos m) 0 = loc_Exact) as ->.
  { unfold new_location, new_location_even, new_location_odd.
    destruct (Z.even (Zpos m)); reflexivity. }
  vm_compute. reflexivity.
Qed.

Lemma SFdiv_half m e :
  SFdiv prec emax (S754_finite false m e) (S754_finite false m (e + 1))
  = S754_finite false 4503599627370496 (-53).
Proof.
  unfold SFdiv, SFdiv_core_binary. simpl Zdigits2.
  replace (Zpos (digits2_pos m) + e - (Zpos (digits2_pos m) + (e + 1))) with (-1) by lia.
  replace (e - (e + 1)) with (-1) by lia.
  change (Z.min (fexp prec emax (-1)) (-1)) with (-54).
  change (-1 - -54) with 53.
  cbv iota.
  rewrite Z.shiftl_mul_pow2 by lia.
  assert (Z.div_eucl (Zpos m * 2 ^ 53) (Zpos m) = (2 ^ 53, 0)) as ->.
  { pose proof (Z.div_eucl_eq (Zpos m * 2 ^ 53) (Zpos m) ltac:(lia)) as Heq.
    pose proof (Z.mod_pos_bound (Zpos m * 2 ^ 53) (Zpos m) ltac:(lia)) as Hb.
    unfold Z.modulo in Hb.
    destruct (Z.div_eucl (Zpos m * 2 ^ 53) (Zpos m)) as [q r].
    assert (q = 2 ^ 53) by nia. subst q. f_equal. lia. }
  assert (new_location (Zpos m) 0 = loc_Exact) as ->.
  { unfold new_location, new_location_even, new_location_odd.
    destruct (Z.even (Zpos m)); reflexivity. }
  vm_compute. reflexivity.
Qed.

Lemma norm_mantissa_double p :
  Zpos (xO p) < 2 ^ 53 -> norm_mantissa (xO p) = norm_mantissa p.
Proof.
  intros Hp. pose proof (digits2_pos_bound (xO p) 53 ltac:(lia) Hp) as Hd.
  unfold norm_mantissa. simpl digits2_pos in *.
  destruct (Zpos (Pos.succ (digits2_pos p)) - 53) as [|q|q] eqn:Hq.
  - assert (Zpos (digits2_pos p) - 53 = Zneg 1) as -> by lia. reflexivity.
  - lia.
  - assert (Zpos (digits2_pos p) - 53 = Zneg (Pos.succ q)) as -> by lia.
    rewrite Pos.iter_succ_r. reflexivity.
Qed.

Lemma float_of_int_small p :
  Zpos p < 2 ^ 53 ->
  Prim2SF (float_of_int (Zpos p))
  = S754_finite false (norm_mantissa p) (Zpos (digits2_pos p) - 53).
Proof.
  intros Hp. unfold float_of_int.
  change (Zpos p <? 0) with false. cbv iota.
  rewrite of_uint63_spec, of_Z_spec.
  rewrite Z.mod_small.
  - by apply binary_normalize_small.
  - change wB with (2 ^ 63). split; [lia|].
    apply Z.lt_trans with (2 ^ 53); [done|]. reflexivity.
Qed.

(** [n / n == 1.0] and [n / (2 * n) == 0.5]. *)
Lemma div_same n :
  0 < n < 2 ^ 53 ->
  PrimFloat.div (float_of_int n) (float_of_int n) = 1%float.
Proof.
  intros [Hpos Hlt]. destruct n as [|p|p]; try lia.
  apply Prim2SF_inj. rewrite FloatAxioms.div_spec, float_of_int_small by done.
  unfold SF64div. rewrite SFdiv_self. reflexivity.
Qed.

Lemma div_double n :
  0 < n -> 2 * n < 2 ^ 53 ->
  PrimFloat.div (float_of_int n) (float_of_int (2 * n)) = 0.5%float.
Proof.
  intros Hpos Hlt. destruct n as [|p|p]; try lia.
  change (2 * Zpos p) with (Zpos (xO p)) in *.
  apply Prim2SF_inj. rewrite FloatAxioms.div_spec, !float_of_int_small by lia.
  rewrite norm_mantissa_double by done. simpl digits2_pos.
  replace (Zpos (Pos.succ (digits2_pos p)) - 53)
    with (Zpos (digits2_pos p) - 53 + 1) by lia.
  unfold SF64div. rewrite SFdiv_half. reflexivity.
Qed.

(** [0.0 / n == 0.0]. *)
Lemma div_zero n :
  0 < n < 2 ^ 53 ->
  PrimFloat.div 0%float (float_of_int n) = 0%float.
Proof.
  intros [Hpos Hlt]. destruct n as [|p|p]; try lia.
  apply Prim2SF_inj. rewrite FloatAxioms.div_spec, float_of_int_small by done.
  reflexivity.
Qed.

(** A float above zero is not below it. *)
Lemma positive_not_negative x :
  PrimFloat.ltb 0%float x = true -> PrimFloat.ltb x 0%float = false.
Proof.
  rewrite !FloatAxioms.ltb_spec. change (Prim2SF 0%float) with (S754_zero false).
  destruct (Prim2SF x) as [s|s| |s m e]; simpl; try done;
    destruct s; simpl; done.
Qed.

End Binary64.

(** ** [audio_utils.py] *)

Module AudioUtils.

Import Binary64.
Local Open Scope float_scope.

Definition bytes : Type := list Byte.byte.

(** A numpy array of float64 of the two shapes audio comes in: [(n,)] and
    [(n, channels)], one row per frame. *)
Inductive ndarray :=
  | Array1 (samples : list float)
  | Array2 (frames : list (list float)).

(** [len(a)] and [len(a.shape)]. *)
Definition len (a : ndarray) : Z :=
  match a with
  | Array1 samples => Z.of_nat (length samples)
  | Array2 frames => Z.of_nat (length frames)
  end.

Definition ndim (a : ndarray) : Z :=
  match a with Array1 _ => 1 | Array2 _ => 2 end.

(** [a / b] on two ints: binary64 division of the two values, which is
    Python's result whenever both are below 2^53 in absolute value. *)
Definition int_truediv (a b : Z) : result float :=
  if (b =? 0)%Z then Raise ZeroDivisionError
  else Ok (PrimFloat.div (float_of_int a) (float_of_int b)).

(** [np.mean(a, axis=1)]: each frame's sum divided by the channel count. *)
Definition mean (row : list float) : float :=
  PrimFloat.div (fold_left PrimFloat.add row 0) (float_of_int (Z.of_nat (length row))).

Definition np_mean_axis1 (frames : list (list float)) : list float := map mean frames.

(** [str(n)] for an int. *)
Definition str_int (n : Z) : string := DecimalString.NilZero.string_of_int (Z.to_int n).

(** What can be passed as [audio_source]. *)
Inductive Source :=
  | FromArray (a : ndarray)
  | FromBytes (b : bytes)
  | FromPath (p : string)
  | FromOther (type_repr : string).

(** What [save_audio] returns: bytes, a path, or (falling off the end of
    the function) [None]. *)
Inductive Output :=
  | OutBytes (b : bytes)
  | OutPath (p : string)
  | OutNone.

(** Where [sf.write] writes: a named file, whose extension picks the
    container, or a buffer with the format given. *)
Inductive SfTarget :=
  | ToFile (path : string)
  | ToBuffer (format : string).

(** The file system, the module's logger and the temporary files made. *)
Record IO := mkIO {
  files : gmap string bytes;
  log : list LogRecord;
  tmp_files : nat
}.

Definition add_log (r : LogRecord) (io : IO) : IO :=
  mkIO (files io) (log io ++ [r]) (tmp_files io).

Definition write_file (path : string) (content : bytes) (io : IO) : IO :=
  mkIO (<[path := content]> (files io)) (log io) (tmp_files io).

Definition logger_info (msg : string) : M IO unit := modify (add_log (INFO, msg)).
Definition logger_warning (msg : string) : M IO unit := modify (add_log (WARNING, msg)).
Definition logger_error (msg : string) : M IO unit := modify (add_log (ERROR, msg)).

Definition SUPPORTED_FORMATS : list string := ["wav"; "mp3"; "ogg"].
Definition DEFAULT_FORMAT : string := "wav".

(** [x in l] on a list of strings. *)
Definition in_list (x : string) (l : list string) : bool := existsb (String.eqb x) l.

(** [if output_path:] on [None] or a [str]. *)
Definition truthy (output_path : option string) : bool :=
  match output_path with
  | None => false
  | Some p => negb (String.eqb p "")
  end.

Definition str_path (output_path : option string) : string :=
  match output_path with Some p => p | None => "None" end.

(** [except ImportError] catches that class and its subclass. *)
Definition is_ImportError (e : PyExn) : bool :=
  in_list (exn_class e) ["ImportError"; "ModuleNotFoundError"].

Section Env.

(** [soundfile]: the encoder behind [sf.write] and the decoder behind
    [sf.read]. *)
Variable sf_encode : SfTarget -> ndarray -> Z -> PyExn + bytes.
Variable sf_decode : bytes -> PyExn + (ndarray * Z).
(** [from pydub import AudioSegment], [AudioSegment.from_wav] and
    [AudioSegment.export]. *)
Variable pydub_import : option PyExn.
Variable AudioSegment : Type.
Variable AudioSegment_from_wav : bytes -> PyExn + AudioSegment.
Variable AudioSegment_export : AudioSegment -> string -> PyExn + bytes.
(** [import librosa] and [librosa.resample]. *)
Variable librosa_import : option PyExn.
Variable librosa_resample : list float -> Z -> Z -> list float.
(** [tempfile]: the name of the [n]-th temporary file. *)
Variable tmp_name : nat -> string.
(** How an f-string shows a float, plainly and with [:.2f]. *)
Variable str_float : float -> string.
Variable format_2f : float -> string.

Definition lift_sum {A} (r : PyExn + A) : M IO A :=
  match r with
  | inl e => raise e
  | inr a => mret a
  end.

(** [sf.write(path, data, samplerate)] and
    [sf.write(buffer, data, samplerate, format=...)]. *)
Definition sf_write_file (path : string) (data : ndarray) (samplerate : Z) : M IO unit :=
  content ← lift_sum (sf_encode (ToFile path) data samplerate);
  modify (write_file path content).

Definition sf_write_buffer (data : ndarray) (samplerate : Z) (format : string)
  : M IO bytes :=
  lift_sum (sf_encode (ToBuffer format) data samplerate).

(** [sf.read(BytesIO(b))] and [sf.read(path)]. *)
Definition sf_read (b : bytes) : M IO (ndarray * Z) := lift_sum (sf_decode b).

Definition sf_read_file (path : string) : M IO (ndarray * Z) :=
  fs ← gets files;
  match fs !! path with
  | Some content => sf_read content
  | None => raise (FileNotFoundError path)
  end.

(** [tempfile.NamedTemporaryFile(suffix=".wav", delete=False)]: a fresh,
    empty file that stays. *)
Definition NamedTemporaryFile : M IO string :=
  fun io =>
    let name := tmp_name (tmp_files io) in
    (mkIO (<[name := []]> (files io)) (log io) (S (tmp_files io)), Ok name).

Definition from_wav (path : string) : M IO AudioSegment :=
  fs ← gets files;
  match fs !! path with
  | Some content => lift_sum (AudioSegment_from_wav content)
  | None => raise (FileNotFoundError path)
  end.

Definition export_file (audio : AudioSegment) (path format : string) : M IO unit :=
  content ← lift_sum (AudioSegment_export audio format);
  modify (write_file path content).

Definition export_buffer (audio : AudioSegment) (format : string) : M IO bytes :=
  lift_sum (AudioSegment_export audio format).

(** [AudioProcessor.save_audio], with the call it makes to itself as a
    parameter. *)
Definition save_audio_body
    (save_audio_rec : ndarray -> Z -> string -> option string -> M IO Output)
    (audio_data : ndarray) (sample_rate : Z) (format : string)
    (output_path : option string) : M IO Output :=
  if negb (in_list (lower format) SUPPORTED_FORMATS) then
    raise (ValueError ("Unsupported format: " +:+ format +:+ ". Use "
                       +:+ repr_list SUPPORTED_FORMATS))
  else
    try_except
      (if String.eqb (lower format) "wav" then
         if truthy output_path then
           sf_write_file (str_path output_path) audio_data sample_rate;;
           logger_info ("Saved WAV audio to " +:+ str_path output_path);;
           mret (OutPath (str_path output_path))
         else
           content ← sf_write_buffer audio_data sample_rate "WAV";
           mret (OutBytes content)
       else if in_list (lower format) ["mp3"; "ogg"] then
         match pydub_import with
         | Some e =>
             if is_ImportError e then
               logger_warning "pydub not available, returning WAV instead";;
               save_audio_rec audio_data sample_rate "wav" output_path
             else raise e
         | None =>
             tmp ← NamedTemporaryFile;
             sf_write_file tmp audio_data sample_rate;;
             audio ← from_wav tmp;
             if truthy output_path then
               export_file audio (str_path output_path) (lower format);;
               logger_info ("Saved " +:+ upper_ascii_str format +:+ " audio to "
                            +:+ str_path output_path);;
               mret (OutPath (str_path output_path))
             else
               content ← export_buffer audio (lower format);
               mret (OutBytes content)
         end
       else mret OutNone)
      (fun e =>
         logger_error ("Failed to save audio: " +:+ str_exn e);;
         raise e).

(** The call with [format = "wav"] makes no call to itself, so two levels
    tie the knot: [save_audio] satisfies its recursive equation (see
    [save_audio_unfold]). *)
Definition save_audio_wav_only : ndarray -> Z -> string -> option string -> M IO Output :=
  save_audio_body (fun _ _ _ _ => raise RecursionError).

Definition save_audio : ndarray -> Z -> string -> option string -> M IO Output :=
  save_audio_body save_audio_wav_only.

(** [AudioProcessor.load_audio]. *)
Definition load_audio (audio_source : Source) (sample_rate : option Z)
  : M IO (ndarray * Z) :=
  try_except
    (loaded ←
       match audio_source with
       | FromArray a =>
           match sample_rate with
           | None => raise (ValueError "sample_rate required when audio_source is numpy array")
           | Some sr => mret (a, sr)
           end
       | FromBytes b => sf_read b
       | FromPath p =>
           fs ← gets files;
           if negb (bool_decide (is_Some (fs !! p))) then
             raise (FileNotFoundError ("Audio file not found: " +:+ p))
           else sf_read_file p
       | FromOther type_repr =>
           raise (TypeError ("Unsupported audio source type: " +:+ type_repr))
       end;
     let '(audio_data, loaded_sr) := (loaded : ndarray * Z) in
     audio_data ←
       match audio_data with
       | Array2 frames =>
           let averaged := Array1 (np_mean_axis1 frames) in
           logger_info "Converted stereo audio to mono";;
           mret averaged
       | Array1 _ => mret audio_data
       end;
     match sample_rate with
     | Some target =>
         if negb (target =? 0)%Z && negb (loaded_sr =? target)%Z then
           match librosa_import with
           | Some e =>
               if is_ImportError e then
                 logger_warning "librosa not available for resampling";;
                 mret (audio_data, loaded_sr)
               else raise e
           | None =>
               let resampled :=
                 match audio_data with
                 | Array1 samples => Array1 (librosa_resample samples loaded_sr target)
                 | Array2 frames =>
                     Array2 (map (fun row => librosa_resample row loaded_sr target) frames)
                 end in
               logger_info ("Resampled audio from " +:+ str_int target +:+ " to "
                            +:+ str_int target +:+ " Hz");;
               mret (resampled, target)
           end
         else mret (audio_data, loaded_sr)
     | None => mret (audio_data, loaded_sr)
     end)
    (fun e =>
       logger_error ("Failed to load audio: " +:+ str_exn e);;
       raise e).

(** [AudioMetadata.get_duration]. *)
Definition get_duration (audio_data : ndarray) (sample_rate : Z) : result float :=
  int_truediv (len audio_data) sample_rate.

(** [AudioProcessor.validate_audio_duration]. *)
Definition validate_audio_duration (audio_data : ndarray) (sample_rate : Z)
    (min_duration : float) : M IO bool :=
  duration ← lift_result (int_truediv (len audio_data) sample_rate);
  let is_valid := PrimFloat.leb min_duration duration in
  (if negb is_valid then
     logger_warning ("Audio duration " +:+ format_2f duration +:+ "s is less than "
                     +:+ str_float min_duration +:+ "s")
   else mret tt);;
  mret is_valid.

Arguments String.append s1 s2 : simpl never.

Ltac run_a :=
  repeat progress
    (unfold mbind, M_bind, mret, M_ret, bind, pure, raise, gets, modify, try_except,
            lift_result, lift_sum, logger_info, logger_warning, logger_error,
            state_of, value_of in *;
     simpl in *).

(** *** [save_audio] *)

Lemma lossy_format format :
  in_list (lower format) ["mp3"; "ogg"] = true ->
  lower format = "mp3" \/ lower format = "ogg".
Proof.
  unfold in_list. cbn [existsb]. rewrite !orb_true_iff, !String.eqb_eq.
  intros [H|[H|H]]; [by left|by right|done].
Qed.


(** The wav branch, on its own. *)
Lemma save_audio_wav audio_data sample_rate output_path io :
  save_audio audio_data sample_rate "wav" output_path io
  = match sf_encode (if truthy output_path then ToFile (str_path output_path)
                     else ToBuffer "WAV") audio_data sample_rate with
    | inr content =>
        if truthy output_path then
          (add_log (INFO, "Saved WAV audio to " +:+ str_path output_path)
             (write_file (str_path output_path) content io),
           Ok (OutPath (str_path output_path)))
        else (io, Ok (OutBytes content))
    | inl e => (add_log (ERROR, "Failed to save audio: " +:+ str_exn e) io, Raise e)
    end.
Proof.
  unfold save_audio, save_audio_body, sf_write_file, sf_write_buffer. simpl.
  destruct (truthy output_path); run_a;
    destruct (sf_encode _ audio_data sample_rate); reflexivity.
Qed.

(** *** [load_audio] *)

Lemma sf_read_file_spec p b io :
  files io !! p = Some b -> sf_read_file p io = sf_read b io.
Proof. intros Hfile. unfold sf_read_file. run_a. by rewrite Hfile. Qed.

Arguments sf_read_file : simpl never.

Lemma load_audio_decoded b frames rate target io :
  sf_decode b = inr (Array2 frames, rate) ->
  target = None \/ target = Some 0%Z \/ target = Some rate ->
  load_audio (FromBytes b) target io
  = (add_log (INFO, "Converted stereo audio to mono") io,
     Ok (Array1 (np_mean_axis1 frames), rate)).
Proof.
  intros Hdec Htarget. unfold load_audio, sf_read. run_a. rewrite Hdec. run_a.
  destruct Htarget as [->|[->| ->]]; simpl; [done|done|].
  by rewrite Z.eqb_refl, andb_false_r.
Qed.

(** *** The claims about the audio utilities *)

(** C7: whatever [load_audio] returns is one-dimensional; an array with
    several channels, passed in or decoded from bytes or from a file, comes
    back as the list of its frames' averages (resampled afterwards when a
    different rate is asked for and librosa is there); and the two-channel
    array [[1, 3], [1, -1]] is returned as [2, 0]. *)
Theorem load_audio_averages_channels :
  (forall audio_source sample_rate io io' data rate,
     load_audio audio_source sample_rate io = (io', Ok (data, rate)) ->
     ndim data = 1%Z)
  /\ (forall frames sr io,
        value_of (load_audio (FromArray (Array2 frames)) (Some sr) io)
        = Ok (Array1 (map mean frames), sr))
  /\ (forall b frames rate target io,
        sf_decode b = inr (Array2 frames, rate) ->
        target = None \/ target = Some 0%Z \/ target = Some rate ->
        value_of (load_audio (FromBytes b) target io)
        = Ok (Array1 (map mean frames), rate))
  /\ (forall p b frames rate target io,
        files io !! p = Some b ->
        sf_decode b = inr (Array2 frames, rate) ->
        target = None \/ target = Some 0%Z \/ target = Some rate ->
        value_of (load_audio (FromPath p) target io)
        = Ok (Array1 (map mean frames), rate))
  /\ (forall b frames rate target io,
        sf_decode b = inr (Array2 frames, rate) ->
        target <> 0%Z -> target <> rate -> librosa_import = None ->
        value_of (load_audio (FromBytes b) (Some target) io)
        = Ok (Array1 (librosa_resample (map mean frames) rate target), target))
  /\ (forall sr io,
        value_of (load_audio (FromArray (Array2 [[1; 3]; [1; -1]])) (Some sr) io)
        = Ok (Array1 [2; 0], sr)).
Proof.
  split_and!.
  - intros src target io io' data rate Hcall.
    unfold load_audio, sf_read_file, sf_read in Hcall. run_a.
    repeat case_match; simplify_eq; reflexivity.
  - intros frames sr io. unfold load_audio. run_a.
    by rewrite Z.eqb_refl, andb_false_r.
  - intros b frames rate target io Hdec Htarget.
    by rewrite (load_audio_decoded _ _ _ _ _ Hdec Htarget).
  - intros p b frames rate target io Hfile Hdec Htarget.
    unfold load_audio. run_a.
    rewrite Hfile. simpl.
    rewrite (sf_read_file_spec _ _ _ Hfile). unfold sf_read.
    rewrite Hdec. run_a.
    destruct Htarget as [->|[->| ->]]; simpl; [done|done|].
    by rewrite Z.eqb_refl, andb_false_r.
  - intros b frames rate target io Hdec H0 Hne Hlib.
    unfold load_audio, sf_read. run_a. rewrite Hdec. run_a.
    assert ((target =? 0)%Z = false) as -> by (by apply Z.eqb_neq).
    assert ((rate =? target)%Z = false) as -> by (apply Z.eqb_neq; congruence).
    simpl. rewrite Hlib. done.
  - intros sr io. unfold load_audio. run_a.
    by rewrite Z.eqb_refl, andb_false_r.
Qed.


(** C9: for a positive sample rate, [validate_audio_duration] returns
    whether [min_duration <= len(audio_data) / sample_rate], the quotient
    being the one [get_duration] computes; with [min_duration = 1.0] that is
    [True] for a buffer of exactly [sample_rate] samples and [False] for
    one of half as many, at any sample rate below 2^53. *)
Theorem validate_audio_duration_spec audio_data sample_rate min_duration io :
  (0 < sample_rate)%Z ->
  get_duration audio_data sample_rate
  = Ok (PrimFloat.div (float_of_int (len audio_data)) (float_of_int sample_rate))
  /\ value_of (validate_audio_duration audio_data sample_rate min_duration io)
     = Ok (PrimFloat.leb min_duration
             (PrimFloat.div (float_of_int (len audio_data)) (float_of_int sample_rate)))
  /\ files (state_of (validate_audio_duration audio_data sample_rate min_duration io))
     = files io
  /\ ((sample_rate < 2 ^ 53)%Z -> len audio_data = sample_rate ->
      value_of (validate_audio_duration audio_data sample_rate 1 io) = Ok true)
  /\ ((sample_rate < 2 ^ 53)%Z -> (2 * len audio_data)%Z = sample_rate ->
      value_of (validate_audio_duration audio_data sample_rate 1 io) = Ok false).
Proof.
  intros Hpos.
  assert ((sample_rate =? 0)%Z = false) as Hnz by (apply Z.eqb_neq; lia).
  assert (forall m,
            value_of (validate_audio_duration audio_data sample_rate m io)
            = Ok (PrimFloat.leb m
                    (PrimFloat.div (float_of_int (len audio_data))
                                   (float_of_int sample_rate)))) as Hval.
  { intros m. unfold validate_audio_duration, int_truediv. rewrite Hnz. run_a.
    by destruct (PrimFloat.leb m _). }
  split_and!.
  - unfold get_duration, int_truediv. by rewrite Hnz.
  - apply Hval.
  - unfold validate_audio_duration, int_truediv. rewrite Hnz. run_a.
    by destruct (PrimFloat.leb min_duration _).
  - intros Hlt Hlen. rewrite Hval, Hlen, div_same by lia. reflexivity.
  - intros Hlt Hlen. rewrite Hval, <- Hlen, div_double by lia. reflexivity.
Qed.

(** *** Further properties of the audio utilities *)

(** [10 ** x] on floats is C's [pow]. *)
Variable float_pow : float -> float -> float.

(** All the samples of an array, and an array with a function applied to
    each of them. *)
Definition flatten (a : ndarray) : list float :=
  match a with
  | Array1 samples => samples
  | Array2 frames => concat frames
  end.

Definition map_samples (f : float -> float) (a : ndarray) : ndarray :=
  match a with
  | Array1 samples => Array1 (map f samples)
  | Array2 frames => Array2 (map (map f) frames)
  end.

(** [AudioProcessor.normalize_audio]. *)
Definition normalize_audio (audio_data : ndarray) (target_db : float) : M IO ndarray :=
  match librosa_import with
  | Some e =>
      if is_ImportError e then
        logger_warning "librosa not available for normalization";;
        mret audio_data
      else raise e
  | None =>
      let rms := PrimFloat.sqrt (mean (map (fun x => x * x) (flatten audio_data))) in
      if PrimFloat.ltb 0 rms then
        let target_linear := float_pow 10 (target_db / 20) in
        let scaled := map_samples (fun x => x * (target_linear / rms)) audio_data in
        logger_info ("Normalized audio to " +:+ str_float target_db +:+ " dB");;
        mret scaled
      else mret audio_data
  end.

Lemma lower_ascii_idem c : lower_ascii (lower_ascii c) = lower_ascii c.
Proof. destruct c as [[] [] [] [] [] [] [] []]; reflexivity. Qed.

Lemma lower_idem s : lower (lower s) = lower s.
Proof. induction s as [|c s IH]; simpl; [done|]. by rewrite lower_ascii_idem, IH. Qed.

Lemma upper_lower s : upper_ascii_str (lower s) = upper_ascii_str s.
Proof.
  induction s as [|c s IH]; simpl; [done|]. rewrite IH. f_equal.
  destruct c as [[] [] [] [] [] [] [] []]; reflexivity.
Qed.

(** X8: a format that is none of wav, mp3, ogg (in any letter case) is
    refused with [ValueError] before anything is done: no file, no
    temporary file, no log record. *)
Theorem save_audio_unsupported audio_data sample_rate format output_path io :
  in_list (lower format) SUPPORTED_FORMATS = false ->
  save_audio audio_data sample_rate format output_path io
  = (io, Raise (ValueError ("Unsupported format: " +:+ format +:+ ". Use "
                            +:+ repr_list SUPPORTED_FORMATS))).
Proof.
  intros Hbad. unfold save_audio, save_audio_body. by rewrite Hbad.
Qed.

(** X9: the format name is case-insensitive: for a supported format,
    [save_audio] does exactly what it does for the lower-case name. *)
Theorem save_audio_case_insensitive audio_data sample_rate format output_path io :
  in_list (lower format) SUPPORTED_FORMATS = true ->
  save_audio audio_data sample_rate format output_path io
  = save_audio audio_data sample_rate (lower format) output_path io.
Proof.
  intros Hok. unfold save_audio, save_audio_body.
  rewrite lower_idem, upper_lower, Hok. reflexivity.
Qed.

(** X10: a wav encode never makes a temporary file and touches no file
    other than its destination: without a destination the state is left
    as it was and the encoder's bytes are returned; with one, that file
    holds the encoder's bytes; and when the encoder fails nothing is
    written and the encoder's exception is logged and re-raised. *)
Theorem save_audio_wav_effect audio_data sample_rate output_path io :
  tmp_files (state_of (save_audio audio_data sample_rate "wav" output_path io))
  = tmp_files io
  /\ (forall q, q <> str_path output_path ->
        files (state_of (save_audio audio_data sample_rate "wav" output_path io)) !! q
        = files io !! q)
  /\ (forall content,
        sf_encode (ToBuffer "WAV") audio_data sample_rate = inr content ->
        truthy output_path = false ->
        save_audio audio_data sample_rate "wav" output_path io
        = (io, Ok (OutBytes content)))
  /\ (forall content,
        sf_encode (ToFile (str_path output_path)) audio_data sample_rate = inr content ->
        truthy output_path = true ->
        value_of (save_audio audio_data sample_rate "wav" output_path io)
        = Ok (OutPath (str_path output_path))
        /\ files (state_of (save_audio audio_data sample_rate "wav" output_path io))
           = <[str_path output_path := content]> (files io))
  /\ (forall e,
        sf_encode (if truthy output_path then ToFile (str_path output_path)
                   else ToBuffer "WAV") audio_data sample_rate = inl e ->
        save_audio audio_data sample_rate "wav" output_path io
        = (add_log (ERROR, "Failed to save audio: " +:+ str_exn e) io, Raise e)).
Proof.
  rewrite save_audio_wav. split_and!.
  - destruct (sf_encode _ _ _); destruct (truthy output_path); reflexivity.
  - intros q Hq. destruct (sf_encode _ _ _); destruct (truthy output_path);
      simpl; try done. by rewrite lookup_insert_ne.
  - intros content Henc Hdest. by rewrite Hdest, Henc.
  - intros content Henc Hdest. rewrite Hdest in *. by rewrite Henc.
  - intros e Henc. by rewrite Henc.
Qed.

(** X11: with pydub present, an mp3 or ogg encode goes through a
    temporary wav file that is never removed: after a successful call the
    file system holds the temporary file with the wav bytes, one more
    temporary file has been made, and the transcoded bytes, made for the
    lower-case format name, are returned or are in the destination. *)
Theorem save_audio_lossy_leaves_temp_file
    audio_data sample_rate format output_path io wav segment encoded :
  in_list (lower format) ["mp3"; "ogg"] = true ->
  pydub_import = None ->
  sf_encode (ToFile (tmp_name (tmp_files io))) audio_data sample_rate = inr wav ->
  AudioSegment_from_wav wav = inr segment ->
  AudioSegment_export segment (lower format) = inr encoded ->
  value_of (save_audio audio_data sample_rate format output_path io)
  = Ok (if truthy output_path then OutPath (str_path output_path) else OutBytes encoded)
  /\ tmp_files (state_of (save_audio audio_data sample_rate format output_path io))
     = S (tmp_files io)
  /\ files (state_of (save_audio audio_data sample_rate format output_path io))
     = (if truthy output_path
        then <[str_path output_path := encoded]>
               (<[tmp_name (tmp_files io) := wav]> (files io))
        else <[tmp_name (tmp_files io) := wav]> (files io)).
Proof.
  intros Hlossy Himport Hwav Hseg Hexp.
  unfold save_audio, save_audio_body.
  assert (in_list (lower format) SUPPORTED_FORMATS = true) as ->.
  { destruct (lossy_format _ Hlossy) as [-> | ->]; reflexivity. }
  assert (String.eqb (lower format) "wav" = false) as ->.
  { destruct (lossy_format _ Hlossy) as [-> | ->]; reflexivity. }
  rewrite Hlossy, Himport.
  unfold NamedTemporaryFile, sf_write_file, from_wav, export_file, export_buffer.
  run_a. rewrite Hwav. run_a. unfold write_file. simpl.
  rewrite lookup_insert_eq. rewrite Hseg. run_a.
  destruct (truthy output_path); run_a; rewrite Hexp; run_a;
    rewrite insert_insert_eq; done.
Qed.

(** X12: [load_audio] never writes to the file system; whenever it
    raises, the last log record is the error record for that very
    exception; and a path that does not exist raises [FileNotFoundError]
    whatever the decoder would do. *)
Theorem load_audio_effects audio_source sample_rate io :
  files (state_of (load_audio audio_source sample_rate io)) = files io
  /\ tmp_files (state_of (load_audio audio_source sample_rate io)) = tmp_files io
  /\ (forall e,
        value_of (load_audio audio_source sample_rate io) = Raise e ->
        last (log (state_of (load_audio audio_source sample_rate io)))
        = Some (ERROR, "Failed to load audio: " +:+ str_exn e))
  /\ (forall p,
        audio_source = FromPath p -> files io !! p = None ->
        value_of (load_audio audio_source sample_rate io)
        = Raise (FileNotFoundError ("Audio file not found: " +:+ p))).
Proof.
  split_and!.
  - unfold load_audio, sf_read_file, sf_read. run_a.
    repeat case_match; simplify_eq; reflexivity.
  - unfold load_audio, sf_read_file, sf_read. run_a.
    repeat case_match; simplify_eq; reflexivity.
  - intros e. unfold load_audio, sf_read_file, sf_read. run_a.
    repeat case_match; simplify_eq; simpl; intros; simplify_eq;
      rewrite ?last_snoc; reflexivity.
  - intros p -> Hnone. unfold load_audio. run_a. rewrite Hnone. reflexivity.
Qed.

(** X13: a one-dimensional array passed with its rate comes back as it
    is, with nothing logged; when another rate is asked for, a result
    computed with librosa present always has the requested rate; and
    without librosa the decoded samples come back unresampled at the
    decoded rate, with a warning. *)
Theorem load_audio_rates :
  (forall samples sr io,
     load_audio (FromArray (Array1 samples)) (Some sr) io = (io, Ok (Array1 samples, sr)))
  /\ (forall audio_source target io io' data rate,
        load_audio audio_source (Some target) io = (io', Ok (data, rate)) ->
        target <> 0%Z -> librosa_import = None -> rate = target)
  /\ (forall b samples rate target io e,
        sf_decode b = inr (Array1 samples, rate) ->
        target <> 0%Z -> target <> rate ->
        librosa_import = Some e -> is_ImportError e = true ->
        load_audio (FromBytes b) (Some target) io
        = (add_log (WARNING, "librosa not available for resampling") io,
           Ok (Array1 samples, rate))).
Proof.
  split_and!.
  - intros samples sr io. unfold load_audio. run_a.
    by rewrite Z.eqb_refl, andb_false_r.
  - intros src target io io' data rate Hcall Hnz Hlib.
    unfold load_audio, sf_read_file, sf_read in Hcall. run_a. rewrite Hlib in Hcall.
    assert ((target =? 0)%Z = false) as Hz by (by apply Z.eqb_neq).
    rewrite Hz in Hcall. simpl in Hcall.
    repeat case_match; simplify_eq; try reflexivity;
      match goal with H : negb (_ =? _)%Z = false |- _ =>
        apply negb_false_iff, Z.eqb_eq in H; done
      end.
  - intros b samples rate target io e Hdec Hnz Hne Hlib Hclass.
    unfold load_audio, sf_read. run_a. rewrite Hdec. run_a.
    assert ((target =? 0)%Z = false) as -> by (by apply Z.eqb_neq).
    assert ((rate =? target)%Z = false) as -> by (apply Z.eqb_neq; congruence).
    simpl. rewrite Hlib, Hclass. reflexivity.
Qed.

(** X14: the code adds nothing of its own to a wav round trip of a
    one-dimensional buffer: when soundfile's reader gives back the array
    and rate that its writer encoded, saving to bytes and loading them,
    or saving to a path and loading from that path, returns the buffer
    and its rate. *)
Theorem save_then_load_wav samples sample_rate content :
  sf_decode content = inr (Array1 samples, sample_rate) ->
  (forall io,
     sf_encode (ToBuffer "WAV") (Array1 samples) sample_rate = inr content ->
     save_audio (Array1 samples) sample_rate "wav" None io = (io, Ok (OutBytes content))
     /\ load_audio (FromBytes content) None io = (io, Ok (Array1 samples, sample_rate)))
  /\ (forall io p,
        sf_encode (ToFile p) (Array1 samples) sample_rate = inr content ->
        p <> "" ->
        value_of (save_audio (Array1 samples) sample_rate "wav" (Some p) io)
        = Ok (OutPath p)
        /\ value_of
             (load_audio (FromPath p) None
                (state_of (save_audio (Array1 samples) sample_rate "wav" (Some p) io)))
           = Ok (Array1 samples, sample_rate)).
Proof.
  intros Hdec. split.
  - intros io Henc. rewrite save_audio_wav. simpl. rewrite Henc. split; [done|].
    unfold load_audio, sf_read. run_a. by rewrite Hdec.
  - intros io p Henc Hp. rewrite save_audio_wav.
    assert (truthy (Some p) = true) as ->.
    { simpl. apply negb_true_iff. by apply String.eqb_neq. }
    simpl. rewrite Henc. simpl. split; [done|].
    unfold load_audio. run_a. rewrite lookup_insert_eq. simpl.
    erewrite sf_read_file_spec by (simpl; apply lookup_insert_eq).
    unfold sf_read. rewrite Hdec. reflexivity.
Qed.

(** X15: [validate_audio_duration] with a sample rate of zero raises
    [ZeroDivisionError] and logs nothing; an empty buffer has duration
    [0.0], so it passes exactly when the floor is at most zero, and it
    fails the one-second floor. *)
Theorem validate_audio_duration_edges audio_data min_duration io :
  validate_audio_duration audio_data 0 min_duration io = (io, Raise ZeroDivisionError)
  /\ (forall sample_rate,
        len audio_data = 0%Z -> (0 < sample_rate < 2 ^ 53)%Z ->
        get_duration audio_data sample_rate = Ok 0
        /\ value_of (validate_audio_duration audio_data sample_rate min_duration io)
           = Ok (PrimFloat.leb min_duration 0)
        /\ value_of (validate_audio_duration audio_data sample_rate 1 io) = Ok false).
Proof.
  split; [reflexivity|].
  intros sample_rate Hlen Hsr.
  assert ((sample_rate =? 0)%Z = false) as Hnz by (apply Z.eqb_neq; lia).
  assert (int_truediv (len audio_data) sample_rate = Ok 0) as Hdiv.
  { unfold int_truediv. rewrite Hnz, Hlen.
    change (float_of_int 0) with 0. by rewrite div_zero. }
  split_and!.
  - exact Hdiv.
  - unfold validate_audio_duration. rewrite Hdiv. run_a.
    by destruct (PrimFloat.leb min_duration 0).
  - unfold validate_audio_duration. rewrite Hdiv. run_a. reflexivity.
Qed.

Lemma sum_of_squares_zero n acc :
  fold_left PrimFloat.add (map (fun x => x * x) (repeat 0 n)) acc
  = Nat.iter n (fun a => a + 0) acc.
Proof.
  revert acc. induction n as [|n IH]; intros acc; simpl; [done|].
  rewrite IH. change (0 * 0) with 0. clear IH.
  induction n as [|n IH]; simpl; [done|]. by rewrite IH.
Qed.

Lemma iter_add_zero n : Nat.iter n (fun a => a + 0) 0 = 0.
Proof. induction n as [|n IH]; simpl; [done|]. by rewrite IH. Qed.

Lemma length_concat_map (f : float -> float) frames :
  length (concat (map (map f) frames)) = length (concat frames).
Proof.
  induction frames as [|row frames IH]; simpl; [done|].
  by rewrite !length_app, length_map, IH.
Qed.

(** X16: [normalize_audio] keeps the shape of the array; without librosa
    it returns its input with a warning; and silence, or an empty array,
    comes back as it is, with nothing logged. *)
Theorem normalize_audio_spec audio_data target_db io :
  (forall io' out,
     normalize_audio audio_data target_db io = (io', Ok out) ->
     len out = len audio_data /\ ndim out = ndim audio_data
     /\ length (flatten out) = length (flatten audio_data))
  /\ (forall e,
        librosa_import = Some e -> is_ImportError e = true ->
        normalize_audio audio_data target_db io
        = (add_log (WARNING, "librosa not available for normalization") io,
           Ok audio_data))
  /\ (forall n,
        librosa_import = None -> audio_data = Array1 (repeat 0 n) ->
        (Z.of_nat n < 2 ^ 53)%Z ->
        normalize_audio audio_data target_db io = (io, Ok audio_data)).
Proof.
  split_and!.
  - intros io' out. unfold normalize_audio. run_a.
    repeat case_match; intros; simplify_eq; try done.
    destruct audio_data as [samples|frames]; simpl;
      rewrite ?length_map; split_and!; try done.
    apply length_concat_map.
  - intros e Hlib Hclass. unfold normalize_audio. by rewrite Hlib, Hclass.
  - intros n Hlib -> Hn. unfold normalize_audio. rewrite Hlib. cbn [flatten].
    assert (PrimFloat.ltb 0 (PrimFloat.sqrt (mean (map (fun x => x * x) (repeat 0 n))))
            = false) as ->; [|reflexivity].
    unfold mean. rewrite sum_of_squares_zero, iter_add_zero, length_map, repeat_length.
    destruct n as [|n]; [reflexivity|].
    rewrite div_zero by lia. reflexivity.
Qed.

End Env.

(** *** Concrete runs *)

(** A process without pydub, whose soundfile writes a four-byte stand-in
    for the encoded audio. *)
Definition riff : bytes := [Byte.x52; Byte.x49; Byte.x46; Byte.x46].
Definition encode_riff : SfTarget -> ndarray -> Z -> PyExn + bytes :=
  fun _ _ _ => inr riff.
Definition no_pydub : option PyExn :=
  Some (mkExn "ModuleNotFoundError" ["No module named 'pydub'"]).
Definition no_segment_from_wav : bytes -> PyExn + unit :=
  fun _ => inl (mkExn "RuntimeError" ["pydub is not installed"]).
Definition no_segment_export : unit -> string -> PyExn + bytes :=
  fun _ _ => inl (mkExn "RuntimeError" ["pydub is not installed"]).
Definition tmp_names : nat -> string := fun _ => "/tmp/tmp0.wav".
Definition show_float : float -> string := fun _ => "?".
Definition empty_io : IO := mkIO ∅ [] 0.

(** Half a second and one second of silence at 16 Hz, against a floor of
    one second; and the two-channel array of the specification, decoded at
    24 kHz. *)
Example half_second_is_too_short :
  validate_audio_duration show_float show_float (Array1 (repeat 0 8)) 16 1 empty_io
  = (mkIO ∅ [(WARNING, "Audio duration ?s is less than ?s")] 0, Ok false).
Proof. vm_compute. reflexivity. Qed.

Example one_second_is_enough :
  validate_audio_duration show_float show_float (Array1 (repeat 0 16)) 16 1 empty_io
  = (empty_io, Ok true).
Proof. vm_compute. reflexivity. Qed.

(** The comparison is the one of binary64: a tenth of a second at 10 Hz
    meets the default floor [0.1], the double written here in full. *)
Example one_tenth_meets_default_floor :
  validate_audio_duration show_float show_float (Array1 [0]) 10
    0x1.999999999999ap-4 empty_io
  = (empty_io, Ok true).
Proof. vm_compute. reflexivity. Qed.

Example stereo_to_mono :
  load_audio (fun _ => inl (mkExn "RuntimeError" ["not a sound file"])) None
    (fun samples _ _ => samples)
    (FromArray (Array2 [[1; 3]; [1; -1]])) (Some 24000%Z) empty_io
  = (mkIO ∅ [(INFO, "Converted stereo audio to mono")] 0, Ok (Array1 [2; 0], 24000%Z)).
Proof. vm_compute. reflexivity. Qed.

Example unsupported_format :
  value_of
    (save_audio encode_riff no_pydub unit no_segment_from_wav no_segment_export
       tmp_names (Array1 [0; 0.5]) 24000 "flac" None empty_io)
  = Raise (ValueError "Unsupported format: flac. Use ['wav', 'mp3', 'ogg']").
Proof. vm_compute. reflexivity. Qed.








Lemma validate_audio_duration_spec_witness :
  value_of (validate_audio_duration show_float show_float (Array1 [0; 0; 0]) 3 1 empty_io)
  = Ok true.
Proof.
  destruct (validate_audio_duration_spec show_float show_float (Array1 [0; 0; 0]) 3 1
              empty_io)
    as (_ & _ & _ & Hone & _).
  - reflexivity.
  - apply Hone; reflexivity.
Defined.

(** *** Further concrete runs *)

(** A process with pydub, whose stand-in transcoder prefixes a byte, and
    a soundfile whose reader gives back two samples at 24 kHz. *)
Definition wav_segment : bytes -> PyExn + bytes := fun content => inr content.
Definition export_id3 : bytes -> string -> PyExn + bytes :=
  fun content _ => inr (Byte.x49 :: content).
Definition decode_two_samples : bytes -> PyExn + (ndarray * Z) :=
  fun _ => inr (Array1 [0; 0.5], 24000%Z).

Lemma save_audio_unsupported_witness :
  save_audio encode_riff no_pydub unit no_segment_from_wav no_segment_export
    tmp_names (Array1 [0; 0.5]) 24000 "FLAC" (Some "out.flac") empty_io
  = (empty_io, Raise (ValueError "Unsupported format: FLAC. Use ['wav', 'mp3', 'ogg']")).
Proof.
  apply (save_audio_unsupported encode_riff no_pydub unit no_segment_from_wav
           no_segment_export tmp_names (Array1 [0; 0.5]) 24000 "FLAC"
           (Some "out.flac") empty_io).
  reflexivity.
Defined.

Lemma save_audio_case_insensitive_witness :
  save_audio encode_riff no_pydub unit no_segment_from_wav no_segment_export
    tmp_names (Array1 [0; 0.5]) 24000 "WAV" None empty_io
  = save_audio encode_riff no_pydub unit no_segment_from_wav no_segment_export
      tmp_names (Array1 [0; 0.5]) 24000 "wav" None empty_io.
Proof.
  apply (save_audio_case_insensitive encode_riff no_pydub unit no_segment_from_wav
           no_segment_export tmp_names (Array1 [0; 0.5]) 24000 "WAV" None empty_io).
  reflexivity.
Defined.

Lemma save_audio_lossy_leaves_temp_file_witness :
  files
    (state_of
       (save_audio encode_riff None bytes wav_segment export_id3 tmp_names
          (Array1 [0; 0.5]) 24000 "Mp3" None empty_io)) !! "/tmp/tmp0.wav"
  = Some riff.
Proof.
  destruct (save_audio_lossy_leaves_temp_file encode_riff None bytes wav_segment
              export_id3 tmp_names (Array1 [0; 0.5]) 24000 "Mp3" None empty_io
              riff riff (Byte.x49 :: riff))
    as (_ & _ & Hfiles).
  - reflexivity.
  - reflexivity.
  - reflexivity.
  - reflexivity.
  - reflexivity.
  - rewrite Hfiles. reflexivity.
Defined.

Lemma save_then_load_wav_witness :
  load_audio decode_two_samples None (fun samples _ _ => samples)
    (FromBytes riff) None empty_io
  = (empty_io, Ok (Array1 [0; 0.5], 24000%Z)).
Proof.
  destruct (save_then_load_wav encode_riff decode_two_samples no_pydub unit
              no_segment_from_wav no_segment_export None (fun samples _ _ => samples)
              tmp_names [0; 0.5] 24000 riff)
    as [Hbytes _].
  - reflexivity.
  - destruct (Hbytes empty_io) as [_ Hload]; [reflexivity|exact Hload].
Defined.

End AudioUtils.

(** ** [device_utils.py] *)

Module DeviceUtils.

Import Binary64.

(** What [DeviceManager] changes in torch's global settings, and the
    module's logger. *)
Record Torch := mkTorch {
  num_threads : Z;
  num_interop_threads : Z;
  mkl_enabled : bool;
  cudnn_benchmark : bool;
  log : list LogRecord
}.

(** A Python number: [get_available_memory_gb] returns the float it
    computed, or the int [0] that [max] was given. *)
Inductive Number :=
  | PyInt (n : Z)
  | PyFloat (x : float).

Definition is_negative (r : Number) : bool :=
  match r with
  | PyInt n => (n <? 0)%Z
  | PyFloat x => PrimFloat.ltb x 0
  end.

Definition add_log (r : LogRecord) (t : Torch) : Torch :=
  mkTorch (num_threads t) (num_interop_threads t) (mkl_enabled t)
          (cudnn_benchmark t) (log t ++ [r]).

Definition logger_info (msg : string) : M Torch unit := modify (add_log (INFO, msg)).
Definition logger_warning (msg : string) : M Torch unit := modify (add_log (WARNING, msg)).

Section Env.

(** [torch.cuda.is_available()], [torch.cuda.device_count()] and
    [os.cpu_count()]. *)
Variable cuda_available : bool.
Variable device_count : Z.
Variable os_cpu_count : option Z.
(** Whether [torch.set_num_interop_threads] and the assignment to
    [torch.backends.mkl.enabled] raise. *)
Variable interop_error : option PyExn.
Variable mkl_error : option PyExn.
(** [torch.cuda.get_device_properties(0).total_memory],
    [torch.cuda.memory_reserved(0)], [torch.cuda.memory_allocated(0)]. *)
Variable total_memory : Z.
Variable memory_reserved : Z.
Variable memory_allocated : Z.

(** [DeviceManager._detect_device]. *)
Definition detect_device : M Torch string :=
  if cuda_available then
    logger_info ("CUDA available with " +:+ AudioUtils.str_int device_count +:+ " GPU(s)");;
    mret "cuda:0"
  else
    logger_warning "CUDA not available, falling back to CPU";;
    mret "cpu".

(** [DeviceManager.is_cuda_available] and [DeviceManager.get_optimal_dtype]. *)
Definition is_cuda_available : bool := cuda_available.

Definition get_optimal_dtype : ModelManager.Dtype :=
  if is_cuda_available then ModelManager.bfloat16 else ModelManager.float32.

(** [os.cpu_count() or 1]. *)
Definition cpu_count_or_1 : Z :=
  match os_cpu_count with
  | Some n => if (n =? 0)%Z then 1 else n
  | None => 1
  end.

Definition torch_set_num_threads (n : Z) : M Torch unit :=
  modify (fun t => mkTorch n (num_interop_threads t) (mkl_enabled t)
                           (cudnn_benchmark t) (log t)).

Definition torch_set_num_interop_threads (n : Z) : M Torch unit :=
  match interop_error with
  | Some e => raise e
  | None =>
      modify (fun t => mkTorch (num_threads t) n (mkl_enabled t)
                               (cudnn_benchmark t) (log t))
  end.

Definition set_mkl_enabled (b : bool) : M Torch unit :=
  match mkl_error with
  | Some e => raise e
  | None =>
      modify (fun t => mkTorch (num_threads t) (num_interop_threads t) b
                               (cudnn_benchmark t) (log t))
  end.

Definition set_cudnn_benchmark (b : bool) : M Torch unit :=
  modify (fun t => mkTorch (num_threads t) (num_interop_threads t) (mkl_enabled t)
                           b (log t)).

(** [DeviceManager.enable_cpu_optimizations]. *)
Definition enable_cpu_optimizations : M Torch unit :=
  if negb is_cuda_available then
    let cpu_count := cpu_count_or_1 in
    torch_set_num_threads cpu_count;;
    try_except
      (torch_set_num_interop_threads (Z.max 1 (cpu_count / 2)))
      (fun _ => mret tt);;
    try_except
      (set_mkl_enabled true;;
       logger_info "MKL optimizations enabled for CPU inference")
      (fun _ => mret tt);;
    set_cudnn_benchmark false
  else mret tt.

(** [x / (1024**3)] on an int. *)
Definition to_gb (x : Z) : float :=
  PrimFloat.div (float_of_int x) (float_of_int (1024 ^ 3)).

(** [max(0, x)] on a float: the float when it is above zero, else the
    int [0]. *)
Definition max_0 (x : float) : Number :=
  if PrimFloat.ltb 0 x then PyFloat x else PyInt 0.

(** [DeviceManager.get_available_memory_gb]. *)
Definition get_available_memory_gb : Number :=
  if negb is_cuda_available then PyFloat 0
  else
    let reserved := to_gb memory_reserved in
    let allocated := to_gb memory_allocated in
    let available :=
      PrimFloat.sub (to_gb total_memory) (PrimFloat.add reserved allocated) in
    max_0 available.

Ltac run_d :=
  repeat progress
    (unfold mbind, M_bind, mret, M_ret, bind, pure, raise, gets, modify, try_except,
            logger_info, logger_warning, state_of, value_of in *;
     simpl in *).

(** X17: [enable_cpu_optimizations] never raises, whatever torch refuses;
    with CUDA it changes nothing; on a CPU it sets the thread count to the
    reported core count, or to 1 when none is reported, and, unless torch
    refuses, the inter-op thread count to half of that but at least 1, so
    that [1 <= interop <= threads]. *)
Theorem enable_cpu_optimizations_spec t :
  value_of (enable_cpu_optimizations t) = Ok tt
  /\ (cuda_available = true -> enable_cpu_optimizations t = (t, Ok tt))
  /\ (cuda_available = false ->
      num_threads (state_of (enable_cpu_optimizations t)) = cpu_count_or_1
      /\ cudnn_benchmark (state_of (enable_cpu_optimizations t)) = false
      /\ num_interop_threads (state_of (enable_cpu_optimizations t))
         = match interop_error with
           | None => Z.max 1 (cpu_count_or_1 / 2)
           | Some _ => num_interop_threads t
           end)
  /\ ((forall n, os_cpu_count = Some n -> (0 <= n)%Z) ->
      cuda_available = false ->
      (1 <= num_threads (state_of (enable_cpu_optimizations t)))%Z
      /\ (interop_error = None ->
          (1 <= num_interop_threads (state_of (enable_cpu_optimizations t))
             <= num_threads (state_of (enable_cpu_optimizations t)))%Z)).
Proof.
  assert (cuda_available = false ->
          num_threads (state_of (enable_cpu_optimizations t)) = cpu_count_or_1
          /\ cudnn_benchmark (state_of (enable_cpu_optimizations t)) = false
          /\ num_interop_threads (state_of (enable_cpu_optimizations t))
             = match interop_error with
               | None => Z.max 1 (cpu_count_or_1 / 2)
               | Some _ => num_interop_threads t
               end) as Hcpu.
  { intros Hc. unfold enable_cpu_optimizations, is_cuda_available,
      torch_set_num_threads, torch_set_num_interop_threads, set_mkl_enabled,
      set_cudnn_benchmark. rewrite Hc. run_d.
    destruct interop_error, mkl_error; run_d; done. }
  split_and!.
  - unfold enable_cpu_optimizations, is_cuda_available,
      torch_set_num_threads, torch_set_num_interop_threads, set_mkl_enabled,
      set_cudnn_benchmark.
    destruct cuda_available; run_d; [done|].
    destruct interop_error, mkl_error; run_d; done.
  - intros Hc. unfold enable_cpu_optimizations, is_cuda_available. by rewrite Hc.
  - exact Hcpu.
  - intros Hcount Hc. destruct (Hcpu Hc) as (Hn & _ & Hi). rewrite Hn.
    assert (1 <= cpu_count_or_1)%Z as Hone.
    { unfold cpu_count_or_1. destruct os_cpu_count as [n|] eqn:Hos; [|lia].
      specialize (Hcount n eq_refl).
      destruct (n =? 0)%Z eqn:Hz; [lia|]. apply Z.eqb_neq in Hz. lia. }
    split; [done|]. intros Hno. rewrite Hi, Hno.
    split; [lia|]. apply Z.max_lub; [done|].
    apply Z.div_le_upper_bound; lia.
Qed.

(** X18: [get_available_memory_gb] is [0.0] without CUDA and is never
    negative: it is the int [0] or a float above zero. *)
Theorem get_available_memory_gb_nonnegative :
  (cuda_available = false -> get_available_memory_gb = PyFloat 0)
  /\ is_negative get_available_memory_gb = false
  /\ (get_available_memory_gb = PyInt 0
      \/ exists x, get_available_memory_gb = PyFloat x
                   /\ (x = 0%float \/ PrimFloat.ltb 0 x = true)).
Proof.
  unfold get_available_memory_gb, is_cuda_available, max_0.
  destruct cuda_available; simpl.
  - split; [done|].
    destruct (PrimFloat.ltb 0 _) eqn:Hpos; simpl.
    + split; [by apply positive_not_negative|]. right. eauto.
    + split; [done|]. by left.
  - split; [done|]. split; [reflexivity|]. right. eauto.
Qed.

End Env.

Example four_cores :
  state_of (enable_cpu_optimizations false (Some 4%Z) None None
              (mkTorch 1 1 false true []))
  = mkTorch 4 2 true false [(INFO, "MKL optimizations enabled for CPU inference")].
Proof. reflexivity. Qed.

Example one_core_interop_refused :
  state_of (enable_cpu_optimizations false (Some 1%Z)
              (Some (mkExn "RuntimeError" ["cannot set number of interop threads"]))
              None (mkTorch 8 8 false true []))
  = mkTorch 1 8 true false [(INFO, "MKL optimizations enabled for CPU inference")].
Proof. reflexivity. Qed.

(** 8 GiB in all, 5 GiB reserved and 4 GiB allocated: the difference is
    below zero and [0] is returned; with 1 GiB allocated, [2.0]. *)
Example memory_overcommitted :
  get_available_memory_gb true (8 * 1024 ^ 3) (5 * 1024 ^ 3) (4 * 1024 ^ 3) = PyInt 0.
Proof. vm_compute. reflexivity. Qed.

Example memory_two_gb_free :
  get_available_memory_gb true (8 * 1024 ^ 3) (5 * 1024 ^ 3) (1 * 1024 ^ 3) = PyFloat 2.
Proof. vm_compute. reflexivity. Qed.

End DeviceUtils.

(** ** [main.py]: the synthesis endpoints, start-up and shut-down *)

Module Main.

Import Binary64.

(** The process: the global [model_manager], the state that the audio
    utilities work on, and this module's logger. *)
Record App := mkApp {
  manager : ModelManager.State;
  audio_io : AudioUtils.IO;
  log : list LogRecord
}.

Definition on_manager {A} (c : M ModelManager.State A) : M App A :=
  fun app =>
    let '(st, r) := c (manager app) in
    (mkApp st (audio_io app) (log app), r).

Definition on_audio {A} (c : M AudioUtils.IO A) : M App A :=
  fun app =>
    let '(io, r) := c (audio_io app) in
    (mkApp (manager app) io (log app), r).

Definition add_log (r : LogRecord) (app : App) : App :=
  mkApp (manager app) (audio_io app) (log app ++ [r]).

Definition logger_info (msg : string) : M App unit := modify (add_log (INFO, msg)).
Definition logger_warning (msg : string) : M App unit := modify (add_log (WARNING, msg)).
Definition logger_error (msg : string) : M App unit := modify (add_log (ERROR, msg)).

(** [HTTPException(status_code=..., detail=...)]. *)
Definition HTTPException (status_code : Z) (detail : string) : PyExn :=
  mkExn "HTTPException" [AudioUtils.str_int status_code; detail].

(** [except ValueError] catches that class and its built-in subclasses. *)
Definition is_ValueError (e : PyExn) : bool :=
  AudioUtils.in_list (exn_class e)
    [ "ValueError"; "UnicodeError"; "UnicodeDecodeError"; "UnicodeEncodeError";
      "UnicodeTranslateError" ].

(** [StreamingResponse(iter([audio_bytes]), media_type=..., headers=...)]. *)
Record StreamingResponse := mkResponse {
  body : AudioUtils.Output;
  media_type : string;
  content_disposition : string
}.

Module TTSCustomVoiceRequest.
Record t := mk {
  text : string;
  voice : string;
  language : string;
  speed : float;
  pitch : float;
  instruction : option string
}.
End TTSCustomVoiceRequest.

Module TTSVoiceDesignRequest.
Record t := mk {
  text : string;
  language : string;
  voice_description : string;
  speed : float
}.
End TTSVoiceDesignRequest.

(** [l[0]]. *)
Definition first_item {A S} (l : list A) : M S A :=
  match l with
  | x :: _ => mret x
  | [] => raise (mkExn "IndexError" ["list index out of range"])
  end.

Section Env.

(** The run time of the model manager. *)
Variable cuda_available : bool.
Variable model_pretrained : nat -> string -> option PyExn.
Variable pretrained_training : bool.
Variable tokenizer_pretrained : nat -> option PyExn.
Variable dynamo_import : option PyExn.
(** The run time of the audio utilities. *)
Variable sf_encode : AudioUtils.SfTarget -> AudioUtils.ndarray -> Z -> PyExn + AudioUtils.bytes.
Variable sf_decode : AudioUtils.bytes -> PyExn + (AudioUtils.ndarray * Z).
Variable pydub_import : option PyExn.
Variable AudioSegment : Type.
Variable AudioSegment_from_wav : AudioUtils.bytes -> PyExn + AudioSegment.
Variable AudioSegment_export : AudioSegment -> string -> PyExn + AudioUtils.bytes.
Variable librosa_import : option PyExn.
Variable librosa_resample : list float -> Z -> Z -> list float.
Variable tmp_name : nat -> string.
Variable str_float : float -> string.
Variable format_2f : float -> string.
(** The synthesis methods of a loaded model: the waveforms and their
    sample rate, or an exception. *)
Variable generate_custom_voice :
  ModelManager.Handle -> string -> string -> string -> option string -> float ->
  PyExn + (list AudioUtils.ndarray * Z).
Variable generate_voice_design :
  ModelManager.Handle -> string -> string -> string ->
  PyExn + (list AudioUtils.ndarray * Z).
Variable generate_voice_clone :
  ModelManager.Handle -> string -> string -> AudioUtils.ndarray * Z -> string -> bool ->
  PyExn + (list AudioUtils.ndarray * Z).

Definition load_model (model_type : string) : M App ModelManager.Handle :=
  on_manager (ModelManager.load_model cuda_available model_pretrained pretrained_training
                dynamo_import model_type false).

Definition load_tokenizer : M App ModelManager.Handle :=
  on_manager (ModelManager.load_tokenizer cuda_available tokenizer_pretrained false).

Definition clear_cache : M App unit :=
  on_manager (ModelManager.clear_cache cuda_available).

(** [AudioProcessor.save_audio(audio_data, sr, format="wav")]. *)
Definition save_wav (audio_data : AudioUtils.ndarray) (sr : Z) : M App AudioUtils.Output :=
  on_audio (AudioUtils.save_audio sf_encode pydub_import AudioSegment
              AudioSegment_from_wav AudioSegment_export tmp_name
              audio_data sr "wav" None).

Definition get_duration (audio_data : AudioUtils.ndarray) (sr : Z) : M App float :=
  lift_result (AudioUtils.get_duration audio_data sr).

Definition lift_sum {A} (r : PyExn + A) : M App A :=
  match r with
  | inl e => raise e
  | inr a => mret a
  end.

(** [synthesize_custom_voice]. *)
Definition synthesize_custom_voice (request : TTSCustomVoiceRequest.t)
  : M App StreamingResponse :=
  try_except
    (let available_voices := ModelManager.get_available_voices in
     if negb (ModelManager.contains available_voices (TTSCustomVoiceRequest.voice request))
     then
       raise (ValueError ("Invalid voice: " +:+ TTSCustomVoiceRequest.voice request
                          +:+ ". Available: " +:+ repr_list (keys available_voices)))
     else
       logger_info ("Synthesizing: '"
                    +:+ String.substring 0 50 (TTSCustomVoiceRequest.text request)
                    +:+ "...' with voice '" +:+ TTSCustomVoiceRequest.voice request
                    +:+ "'");;
       logger_info
         "Loading custom_voice model (this may take a few minutes on first request)...";;
       model ← load_model "custom_voice";
       logger_info "Model loaded successfully, generating speech...";;
       generated ← lift_sum
         (generate_custom_voice model
            (TTSCustomVoiceRequest.text request)
            (TTSCustomVoiceRequest.language request)
            (TTSCustomVoiceRequest.voice request)
            (TTSCustomVoiceRequest.instruction request)
            (TTSCustomVoiceRequest.speed request));
       let '(wavs, sr) := (generated : list AudioUtils.ndarray * Z) in
       audio_data ← first_item wavs;
       audio_bytes ← save_wav audio_data sr;
       duration ← get_duration audio_data sr;
       logger_info ("Generated audio: " +:+ format_2f duration +:+ "s");;
       mret (mkResponse audio_bytes "audio/wav"
               ("attachment; filename=audio_" +:+ TTSCustomVoiceRequest.voice request
                +:+ ".wav")))
    (fun e =>
       if is_ValueError e then
         logger_error ("Validation error: " +:+ str_exn e);;
         raise (HTTPException 400 (str_exn e))
       else
         logger_error ("TTS generation failed: " +:+ str_exn e);;
         raise (HTTPException 500 "Speech synthesis failed")).

(** [synthesize_voice_design]. *)
Definition synthesize_voice_design (request : TTSVoiceDesignRequest.t)
  : M App StreamingResponse :=
  try_except
    (logger_info ("Voice design: '"
                  +:+ String.substring 0 50 (TTSVoiceDesignRequest.text request)
                  +:+ "...'");;
     logger_info ("Voice description: "
                  +:+ String.substring 0 100 (TTSVoiceDesignRequest.voice_description request)
                  +:+ "...");;
     logger_info
       "Loading voice_design model (this may take a few minutes on first request)...";;
     model ← load_model "voice_design";
     logger_info "Model loaded successfully, generating speech...";;
     generated ← lift_sum
       (generate_voice_design model
          (TTSVoiceDesignRequest.text request)
          (TTSVoiceDesignRequest.language request)
          (TTSVoiceDesignRequest.voice_description request));
     let '(wavs, sr) := (generated : list AudioUtils.ndarray * Z) in
     audio_data ← first_item wavs;
     audio_bytes ← save_wav audio_data sr;
     duration ← get_duration audio_data sr;
     logger_info ("Generated audio: " +:+ format_2f duration +:+ "s");;
     mret (mkResponse audio_bytes "audio/wav"
             "attachment; filename=audio_voice_design.wav"))
    (fun e =>
       logger_error ("Voice design synthesis failed: " +:+ str_exn e);;
       raise (HTTPException 500 "Voice design synthesis failed")).

(** [synthesize_voice_clone]; [reference_audio] is what
    [await reference_audio.read()] returns. *)
Definition synthesize_voice_clone (text : string) (reference_audio : AudioUtils.bytes)
    (reference_text language : string) (x_vector_only_mode : bool)
  : M App StreamingResponse :=
  try_except
    (logger_info ("Voice clone: '" +:+ String.substring 0 50 text +:+ "...'");;
     loaded ← on_audio
       (AudioUtils.load_audio sf_decode librosa_import librosa_resample
          (AudioUtils.FromBytes reference_audio) None);
     let '(ref_audio_data, ref_sr) := (loaded : AudioUtils.ndarray * Z) in
     long_enough ← on_audio
       (AudioUtils.validate_audio_duration str_float format_2f ref_audio_data ref_sr 1);
     if negb long_enough then
       raise (ValueError
                "Reference audio too short. Minimum 1 second required (3+ seconds recommended)")
     else
       ref_duration ← get_duration ref_audio_data ref_sr;
       logger_info ("Reference audio duration: " +:+ format_2f ref_duration +:+ "s");;
       model ← load_model "voice_clone";
       generated ← lift_sum
         (generate_voice_clone model text language (ref_audio_data, ref_sr)
            reference_text x_vector_only_mode);
       let '(wavs, sr) := (generated : list AudioUtils.ndarray * Z) in
       audio_data ← first_item wavs;
       audio_bytes ← save_wav audio_data sr;
       duration ← get_duration audio_data sr;
       logger_info ("Generated audio: " +:+ format_2f duration +:+ "s");;
       mret (mkResponse audio_bytes "audio/wav"
               "attachment; filename=audio_voice_clone.wav"))
    (fun e =>
       if is_ValueError e then
         logger_error ("Validation error: " +:+ str_exn e);;
         raise (HTTPException 400 (str_exn e))
       else
         logger_error ("Voice clone synthesis failed: " +:+ str_exn e);;
         raise (HTTPException 500 "Voice clone synthesis failed")).

(** [background_model_load], the task that [startup_event] starts. *)
Definition background_model_load : M App unit :=
  try_except
    (load_tokenizer;;
     logger_info "Tokenizer loaded successfully";;
     load_model "custom_voice";;
     logger_info "Custom voice model pre-loaded successfully")
    (fun e => logger_warning ("Background model pre-load skipped: " +:+ str_exn e)).

(** [shutdown_event]. *)
Definition shutdown_event : M App unit :=
  logger_info "Shutting down Qwen3-TTS API";;
  clear_cache.

Arguments String.append s1 s2 : simpl never.
Arguments String.substring n m s : simpl never.

Ltac run_app :=
  repeat progress
    (unfold mbind, M_bind, mret, M_ret, bind, pure, raise, gets, modify, try_except,
            lift_result, lift_sum, first_item, logger_info, logger_warning, logger_error,
            on_manager, on_audio, load_model, load_tokenizer, clear_cache, save_wav,
            get_duration, state_of, value_of in *;
     simpl in *).

(** X19: a request for a voice that is not one of [AVAILABLE_VOICES] is
    answered with status 400 and the message that lists the voices, before
    anything else happens: the model manager and the audio state are
    untouched, and the only log record is the validation error. *)
Theorem synthesize_custom_voice_invalid_voice request app :
  ModelManager.contains ModelManager.AVAILABLE_VOICES
    (TTSCustomVoiceRequest.voice request) = false ->
  synthesize_custom_voice request app
  = (add_log
       (ERROR, "Validation error: "
               +:+ ("Invalid voice: " +:+ TTSCustomVoiceRequest.voice request
                    +:+ ". Available: "
                    +:+ repr_list (keys ModelManager.AVAILABLE_VOICES))) app,
     Raise (HTTPException 400
              ("Invalid voice: " +:+ TTSCustomVoiceRequest.voice request
               +:+ ". Available: " +:+ repr_list (keys ModelManager.AVAILABLE_VOICES)))).
Proof.
  intros Hbad. unfold synthesize_custom_voice, ModelManager.get_available_voices.
  rewrite Hbad. reflexivity.
Qed.

(** X20: the three synthesis endpoints raise nothing but [HTTPException]:
    status 400 with the exception's text for a [ValueError] (custom voice
    and voice clone only), status 500 with a fixed message, which never
    shows the exception's text, for anything else. *)
Theorem endpoints_raise_only_http_errors :
  (forall request app e,
     value_of (synthesize_custom_voice request app) = Raise e ->
     (exists cause, is_ValueError cause = true /\ e = HTTPException 400 (str_exn cause))
     \/ e = HTTPException 500 "Speech synthesis failed")
  /\ (forall request app e,
        value_of (synthesize_voice_design request app) = Raise e ->
        e = HTTPException 500 "Voice design synthesis failed")
  /\ (forall text reference_audio reference_text language x_vector_only_mode app e,
        value_of (synthesize_voice_clone text reference_audio reference_text language
                    x_vector_only_mode app) = Raise e ->
        (exists cause, is_ValueError cause = true /\ e = HTTPException 400 (str_exn cause))
        \/ e = HTTPException 500 "Voice clone synthesis failed").
Proof.
  split_and!.
  - intros request app e. unfold synthesize_custom_voice, try_except, value_of.
    match goal with |- context [let (_, _) := ?c app in _] =>
      destruct (c app) as [app' [resp|cause]]
    end; simpl; [done|].
    destruct (is_ValueError cause) eqn:Hclass; run_app; intros; simplify_eq; eauto.
  - intros request app e. unfold synthesize_voice_design, try_except, value_of.
    match goal with |- context [let (_, _) := ?c app in _] =>
      destruct (c app) as [app' [resp|cause]]
    end; simpl; [done|].
    run_app. intros. by simplify_eq.
  - intros text reference_audio reference_text language x_vector_only_mode app e.
    unfold synthesize_voice_clone, try_except, value_of.
    match goal with |- context [let (_, _) := ?c app in _] =>
      destruct (c app) as [app' [resp|cause]]
    end; simpl; [done|].
    destruct (is_ValueError cause) eqn:Hclass; run_app; intros; simplify_eq; eauto.
Qed.

(** X21: when the reference audio decodes but fails the one-second floor,
    the voice-clone endpoint answers with status 400 and the fixed
    message, and the model manager is not touched: no model is loaded for
    a request that is going to be refused. *)
Theorem synthesize_voice_clone_too_short
    text reference_audio reference_text language x_vector_only_mode app
    io1 io2 ref_audio_data ref_sr :
  AudioUtils.load_audio sf_decode librosa_import librosa_resample
    (AudioUtils.FromBytes reference_audio) None (audio_io app)
  = (io1, Ok (ref_audio_data, ref_sr)) ->
  AudioUtils.validate_audio_duration str_float format_2f ref_audio_data ref_sr 1 io1
  = (io2, Ok false) ->
  value_of (synthesize_voice_clone text reference_audio reference_text language
              x_vector_only_mode app)
  = Raise (HTTPException 400
             "Reference audio too short. Minimum 1 second required (3+ seconds recommended)")
  /\ manager (state_of (synthesize_voice_clone text reference_audio reference_text
                          language x_vector_only_mode app))
     = manager app
  /\ audio_io (state_of (synthesize_voice_clone text reference_audio reference_text
                           language x_vector_only_mode app))
     = io2.
Proof.
  intros Hload Hvalid. unfold synthesize_voice_clone. run_app.
  rewrite Hload. simpl. rewrite Hvalid. simpl. done.
Qed.

(** X22: a custom-voice request with a known voice, when the model is
    there or loads, the model returns at least one waveform with a
    non-zero rate and soundfile encodes it, is answered with those wav
    bytes as [audio/wav] under the name [audio_<voice>.wav]; the manager
    is left as [load_model] left it and no file is written. *)
Theorem synthesize_custom_voice_success request app st1 model audio_data rest sr content :
  ModelManager.contains ModelManager.AVAILABLE_VOICES
    (TTSCustomVoiceRequest.voice request) = true ->
  ModelManager.load_model cuda_available model_pretrained pretrained_training
    dynamo_import "custom_voice" false (manager app) = (st1, Ok model) ->
  generate_custom_voice model
    (TTSCustomVoiceRequest.text request) (TTSCustomVoiceRequest.language request)
    (TTSCustomVoiceRequest.voice request) (TTSCustomVoiceRequest.instruction request)
    (TTSCustomVoiceRequest.speed request)
  = inr (audio_data :: rest, sr) ->
  sr <> 0%Z ->
  sf_encode (AudioUtils.ToBuffer "WAV") audio_data sr = inr content ->
  value_of (synthesize_custom_voice request app)
  = Ok (mkResponse (AudioUtils.OutBytes content) "audio/wav"
          ("attachment; filename=audio_" +:+ TTSCustomVoiceRequest.voice request
           +:+ ".wav"))
  /\ manager (state_of (synthesize_custom_voice request app)) = st1
  /\ AudioUtils.files (audio_io (state_of (synthesize_custom_voice request app)))
     = AudioUtils.files (audio_io app).
Proof.
  intros Hvoice Hload Hgen Hsr Henc.
  unfold synthesize_custom_voice, ModelManager.get_available_voices.
  rewrite Hvoice. run_app. rewrite Hload. simpl. rewrite Hgen. simpl.
  rewrite AudioUtils.save_audio_wav. simpl. rewrite Henc. simpl.
  unfold AudioUtils.get_duration, AudioUtils.int_truediv.
  assert ((sr =? 0)%Z = false) as -> by (by apply Z.eqb_neq).
  simpl. done.
Qed.

(** X23: the start-up pre-load never raises and leaves the audio state
    alone; when the tokenizer fails to load, the custom-voice model is not
    attempted; when both loads succeed on an empty cache, both are cached
    afterwards; and [shutdown_event] leaves the cache empty. *)
Theorem background_model_load_spec app :
  value_of (background_model_load app) = Ok tt
  /\ audio_io (state_of (background_model_load app)) = audio_io app
  /\ (forall e,
        ModelManager.models (manager app) !! "tokenizer" = None ->
        tokenizer_pretrained (ModelManager.tokenizer_loads (manager app)) = Some e ->
        ModelManager.model_loads (manager (state_of (background_model_load app)))
        = ModelManager.model_loads (manager app)
        /\ ModelManager.models (manager (state_of (background_model_load app)))
           = ModelManager.models (manager app)
        /\ last (log (state_of (background_model_load app)))
           = Some (WARNING, "Background model pre-load skipped: " +:+ str_exn e))
  /\ (forall model_id,
        ModelManager.models (manager app) = ∅ ->
        ModelManager.resolve (ModelManager.model_size (manager app)) "custom_voice"
        = Some model_id ->
        tokenizer_pretrained (ModelManager.tokenizer_loads (manager app)) = None ->
        model_pretrained (length (ModelManager.model_loads (manager app))) model_id
        = None ->
        is_Some (ModelManager.models (manager (state_of (background_model_load app)))
                   !! "tokenizer")
        /\ is_Some (ModelManager.models (manager (state_of (background_model_load app)))
                      !! "custom_voice"))
  /\ (value_of (shutdown_event app) = Ok tt
      /\ ModelManager.models (manager (state_of (shutdown_event app))) = ∅).
Proof.
  split_and!.
  - unfold background_model_load. run_app.
    destruct (ModelManager.load_tokenizer _ _ _ _) as [st1 [tok|e]]; simpl; [|done].
    destruct (ModelManager.load_model _ _ _ _ _ _ _) as [st2 [model|e]]; simpl; done.
  - unfold background_model_load. run_app.
    destruct (ModelManager.load_tokenizer _ _ _ _) as [st1 [tok|e]]; simpl; [|done].
    destruct (ModelManager.load_model _ _ _ _ _ _ _) as [st2 [model|e]]; simpl; done.
  - intros e Hnone Hfail.
    assert (ModelManager.cached "tokenizer" (manager app) && negb false = false) as Hmiss.
    { apply ModelManager.cached_false in Hnone. by rewrite Hnone. }
    destruct (ModelManager.load_tokenizer_failure cuda_available tokenizer_pretrained
                _ _ _ Hmiss Hfail) as (st' & Heq & Hm & _ & _ & Hl & _).
    unfold background_model_load. run_app. rewrite Heq. simpl.
    split_and!; try done. apply last_snoc.
  - intros model_id Hempty Hres Htok Hmodel.
    assert (ModelManager.cached "tokenizer" (manager app) && negb false = false) as Hmiss.
    { assert (ModelManager.cached "tokenizer" (manager app) = false) as ->; [|done].
      apply ModelManager.cached_false. by rewrite Hempty. }
    destruct (ModelManager.load_tokenizer_success cuda_available tokenizer_pretrained
                _ _ Hmiss Htok) as (st1 & Heq1 & Hm1 & Hs1 & _ & Hl1 & _).
    assert (ModelManager.cached "custom_voice" st1 && negb false = false) as Hmiss1.
    { assert (ModelManager.cached "custom_voice" st1 = false) as ->; [|done].
      apply ModelManager.cached_false. rewrite Hm1, Hempty.
      by rewrite lookup_insert_ne. }
    rewrite <- Hs1 in Hres. rewrite <- Hl1 in Hmodel.
    destruct (ModelManager.load_model_success cuda_available model_pretrained
                pretrained_training dynamo_import _ _ _ _ Hmiss1 Hres Hmodel)
      as (st2 & Heq2 & Hm2 & _).
    unfold background_model_load. run_app. rewrite Heq1. simpl. rewrite Heq2. simpl.
    rewrite Hm2, Hm1. split.
    + rewrite lookup_insert_ne by done. rewrite lookup_insert_eq. eauto.
    + rewrite lookup_insert_eq. eauto.
  - unfold shutdown_event. run_app.
    destruct (ModelManager.clear_cache_spec cuda_available (manager app))
      as (st' & Heq & Hm & _).
    rewrite Heq. simpl. done.
  - unfold shutdown_event. run_app.
    destruct (ModelManager.clear_cache_spec cuda_available (manager app))
      as (st' & Heq & Hm & _).
    rewrite Heq. simpl. done.
Qed.

End Env.

(** *** Concrete runs *)

(** A freshly started CPU-only process without pydub, a model that
    answers every request with two samples at 24 kHz, and an upload that
    decodes to two samples at 4 Hz: half a second. *)
Definition fresh_app : App := mkApp ModelManager.fresh AudioUtils.empty_io [].

Definition two_samples :
  ModelManager.Handle -> string -> string -> string -> option string -> float ->
  PyExn + (list AudioUtils.ndarray * Z) :=
  fun _ _ _ _ _ _ => inr ([AudioUtils.Array1 [0; 0.5]%float], 24000).

Definition cloned_two_samples :
  ModelManager.Handle -> string -> string -> AudioUtils.ndarray * Z -> string -> bool ->
  PyExn + (list AudioUtils.ndarray * Z) :=
  fun _ _ _ _ _ _ => inr ([AudioUtils.Array1 [0; 0.5]%float], 24000).

Definition decode_half_second : AudioUtils.bytes -> PyExn + (AudioUtils.ndarray * Z) :=
  fun _ => inr (AudioUtils.Array1 [0; 0]%float, 4).

Definition request_vivian : TTSCustomVoiceRequest.t :=
  TTSCustomVoiceRequest.mk "Hello" "Vivian" "Auto" 1 1 None.

Definition request_nobody : TTSCustomVoiceRequest.t :=
  TTSCustomVoiceRequest.mk "Hello" "Nobody" "Auto" 1 1 None.

Definition demo_custom_voice : TTSCustomVoiceRequest.t -> M App StreamingResponse :=
  synthesize_custom_voice false ModelManager.loaders_ok true None AudioUtils.encode_riff
    AudioUtils.no_pydub unit AudioUtils.no_segment_from_wav AudioUtils.no_segment_export
    AudioUtils.tmp_names AudioUtils.show_float two_samples.

Definition demo_voice_clone
  : string -> AudioUtils.bytes -> string -> string -> bool -> M App StreamingResponse :=
  synthesize_voice_clone false ModelManager.loaders_ok true None AudioUtils.encode_riff
    decode_half_second AudioUtils.no_pydub unit AudioUtils.no_segment_from_wav
    AudioUtils.no_segment_export None (fun samples _ _ => samples)
    AudioUtils.tmp_names AudioUtils.show_float AudioUtils.show_float cloned_two_samples.

Lemma synthesize_custom_voice_invalid_voice_witness :
  value_of (demo_custom_voice request_nobody fresh_app)
  = Raise (HTTPException 400
             ("Invalid voice: Nobody. Available: ['Vivian', 'Serena', 'Uncle_Fu', "
              +:+ "'Dylan', 'Eric', 'Ryan', 'Aiden', 'Ono_Anna', 'Sohee']")).
Proof.
  unfold demo_custom_voice.
  rewrite (synthesize_custom_voice_invalid_voice false ModelManager.loaders_ok true None
             AudioUtils.encode_riff AudioUtils.no_pydub unit
             AudioUtils.no_segment_from_wav AudioUtils.no_segment_export
             AudioUtils.tmp_names AudioUtils.show_float two_samples
             request_nobody fresh_app).
  - reflexivity.
  - reflexivity.
Defined.

Lemma synthesize_voice_clone_too_short_witness :
  value_of (demo_voice_clone "Hello" AudioUtils.riff "Hi" "Auto" false fresh_app)
  = Raise (HTTPException 400
             "Reference audio too short. Minimum 1 second required (3+ seconds recommended)")
  /\ manager (state_of (demo_voice_clone "Hello" AudioUtils.riff "Hi" "Auto" false
                          fresh_app))
     = ModelManager.fresh.
Proof.
  destruct (synthesize_voice_clone_too_short false ModelManager.loaders_ok true None
              AudioUtils.encode_riff decode_half_second AudioUtils.no_pydub unit
              AudioUtils.no_segment_from_wav AudioUtils.no_segment_export None
              (fun samples _ _ => samples) AudioUtils.tmp_names AudioUtils.show_float
              AudioUtils.show_float cloned_two_samples
              "Hello" AudioUtils.riff "Hi" "Auto" false fresh_app
              AudioUtils.empty_io
              (AudioUtils.mkIO ∅ [(WARNING, "Audio duration ?s is less than ?s")] 0)
              (AudioUtils.Array1 [0; 0]%float) 4)
    as (Hvalue & Hmanager & _).
  - vm_compute. reflexivity.
  - vm_compute. reflexivity.
  - split; [exact Hvalue|exact Hmanager].
Defined.

Lemma synthesize_custom_voice_success_witness :
  value_of (demo_custom_voice request_vivian fresh_app)
  = Ok (mkResponse (AudioUtils.OutBytes AudioUtils.riff) "audio/wav"
          "attachment; filename=audio_Vivian.wav").
Proof.
  destruct (synthesize_custom_voice_success false ModelManager.loaders_ok true None
              AudioUtils.encode_riff AudioUtils.no_pydub unit
              AudioUtils.no_segment_from_wav AudioUtils.no_segment_export
              AudioUtils.tmp_names AudioUtils.show_float two_samples
              request_vivian fresh_app ModelManager.with_custom_voice
              ModelManager.custom_voice_1_7B (AudioUtils.Array1 [0; 0.5]%float) []
              24000 AudioUtils.riff)
    as (Hvalue & _).
  - reflexivity.
  - vm_compute. reflexivity.
  - reflexivity.
  - discriminate.
  - reflexivity.
  - exact Hvalue.
Defined.

(** The second request is served from the cache: one loader call in all. *)
Example two_requests_one_load :
  ModelManager.model_loads
    (manager (state_of (demo_custom_voice request_vivian
                          (state_of (demo_custom_voice request_vivian fresh_app)))))
  = ["Qwen/Qwen3-TTS-12Hz-1.7B-CustomVoice"].
Proof. vm_compute. reflexivity. Qed.

End Main.
